(** * GASAL2-Py: the one-pair alignment wrapper [gasal_py_nobatch.cpp]

    A shallow embedding of [GasalAligner] (constructor and [align]) and of
    the result type [PAlign] that the pybind11 module [gasalwrap] exposes.

    Conventions.
    - C++ integers are [Z]; every conversion the source performs
      ([(int)x.size()], [(uint32_t)x.size()], the [uint32_t] arithmetic of
      [packed_bytes_rounded]) is written out with its wrap-around.
    - [std::string] is [list ascii] (one [ascii] per [unsigned char]).
    - C arrays reached through a pointer ([host_query_batch_lens],
      [aln_score], [cigar], ...) are functions from the index to the cell.
    - The GASAL2 library calls ([gasal_host_batch_fill], [gasal_aln_async],
      ...) are not part of the wrapper: [align] is written over an abstract
      [Backend].  Every call the wrapper makes is recorded in a log, in
      program order.
    - The busy-wait loop is run with fuel.
    - [Ref] is an example library written after the specification, in
      two variants that differ in what the fill call returns; it serves
      to run [align] on concrete inputs. *)

From Stdlib Require Import ZArith Ascii String List Bool Lia.
Import ListNotations.

Local Open Scope Z_scope.

(* ================================================================== *)
(** * Part I.  Definitions                                            *)
(* ================================================================== *)

(** ** Machine integers *)

Module Int.

(** Value of a [uint32_t] obtained from an integer [z]. *)
Definition to_uint32 (z : Z) : Z := z mod 2 ^ 32.

(** Value of an [int] (32 bits, two's complement) obtained from an
    integer [z]: the conversion [(int)x] of a wider or unsigned [x]. *)
Definition to_int (z : Z) : Z :=
  let r := z mod 2 ^ 32 in
  if r <? 2 ^ 31 then r else r - 2 ^ 32.

(** Value of a [uint8_t] obtained from an integer [z]. *)
Definition to_uint8 (z : Z) : Z := z mod 2 ^ 8.

(** Value of a [size_t] (64 bits). *)
Definition to_size_t (z : Z) : Z := z mod 2 ^ 64.

End Int.

(** ** Strings *)

(** [x.size()] of a [std::string], a [size_t]. *)
Definition size (x : list ascii) : Z := Int.to_size_t (Z.of_nat (length x)).

(** [std::toupper] in the "C" locale: the 26 lower-case letters go to
    their upper-case counterparts, every other byte is unchanged. *)
Definition toupper (c : ascii) : ascii :=
  let n := N_of_ascii c in
  if ((97 <=? n) && (n <=? 122))%N then ascii_of_N (n - 32) else c.

(** The test [u=='A'||u=='C'||u=='G'||u=='T'||u=='N'] of the lambda. *)
Definition is_base (u : ascii) : bool :=
  Ascii.eqb u "A" || Ascii.eqb u "C" || Ascii.eqb u "G"
  || Ascii.eqb u "T" || Ascii.eqb u "N".

(** Body of the [for] loop of [sanitize]: the character pushed for [c]. *)
Definition sanitize_char (c : ascii) : ascii :=
  let u := toupper c in
  if is_base u then u else "N"%char.

(** The loop [for (unsigned char c : x) y.push_back(...)], with [y] the
    string built so far. *)
Fixpoint sanitize_loop (x : list ascii) (y : list ascii) : list ascii :=
  match x with
  | [] => y
  | c :: x' => sanitize_loop x' (y ++ [sanitize_char c])
  end.

(** The lambda [sanitize] of [GasalAligner::align]. *)
Definition sanitize (x : list ascii) : list ascii := sanitize_loop x [].

(** The alphabet of the specification. *)
Definition alphabet : list ascii :=
  ["A"; "C"; "G"; "T"; "N"]%char.

(** Sanitization as the specification words it: every character is
    upper-cased, and replaced by N when the upper-cased character is not
    in the alphabet. *)
Definition sanitize_spec (x : list ascii) : list ascii :=
  map (fun c =>
         if in_dec ascii_dec (toupper c) alphabet then toupper c
         else "N"%char) x.

(** ** Packed byte count *)

(** The lambda [packed_bytes_rounded]: [L] is a [uint32_t], the sums and
    products are [uint32_t] operations, the result is converted to [int]. *)
Definition packed_bytes_rounded (L : Z) : Z :=
  let bytes := Int.to_uint32 (L + 3) / 4 in
  Int.to_int (Int.to_uint32 (Int.to_uint32 (bytes + 7) / 8 * 8)).

(** Ceiling of [a / b] for positive [b], from floor division. *)
Definition ceil_div (a b : Z) : Z := - ((- a) / b).

(** [round_up_to_8 n]: the next multiple of 8 at or above [n]. *)
Definition round_up_to_8 (n : Z) : Z := ceil_div n 8 * 8.

(** Byte length of a packed sequence as the specification gives it. *)
Definition packed_len_spec (L : Z) : Z := round_up_to_8 (ceil_div L 4).

(** ** The GASAL2 interface used by the wrapper *)

(** Modelled from the spec: the enumerations of [gasal_header.h], which is
    not among the sources.  [data_source] names the sequence(s) a call or a
    free-end setting refers to (specification 4.4 and 9: none, the query,
    the target, or both); the wrapper uses [QUERY] and [TARGET]. *)
Inductive data_source : Type := NONE | QUERY | TARGET | BOTH.

(** Modelled from the spec: the alignment kinds of the glossary (global,
    semi-global, local); the wrapper uses [SEMI_GLOBAL]. *)
Inductive algo_type : Type := GLOBAL | SEMI_GLOBAL | LOCAL.

(** Modelled from the spec: what is computed besides the score (nothing,
    the start coordinates, or the traceback); the wrapper uses [WITH_TB]. *)
Inductive comp_start : Type := WITHOUT_START | WITH_START | WITH_TB.

(** The fields of [Parameters] that the wrapper assigns. *)
Record Parameters : Type := mkParameters {
  algo : algo_type;
  start_pos : comp_start;
  semiglobal_skipping_head : data_source;
  semiglobal_skipping_tail : data_source
}.

(** [gasal_subst_scores]; the field [match] is spelled [match_]. *)
Record gasal_subst_scores : Type := mkSubst {
  match_ : Z;
  mismatch : Z;
  gap_open : Z;
  gap_extend : Z
}.

(** [gasal_res_t], the result arrays read through [stor.host_res]. *)
Record gasal_res_t : Type := mkRes {
  aln_score : Z -> Z;
  query_batch_start : Z -> Z;
  query_batch_end : Z -> Z;
  target_batch_start : Z -> Z;
  target_batch_end : Z -> Z;
  n_cigar_ops : Z -> Z;
  cigar : Z -> Z
}.

(** [gasal_gpu_storage_t]: the members the wrapper reads or writes, and
    [lib], everything else the library keeps (host pages, device buffers,
    the stream, the scores copied to the device). *)
Record gasal_gpu_storage_t (L : Type) : Type := mkStorage {
  current_n_alns : Z;
  host_query_batch_offsets : Z -> Z;
  host_target_batch_offsets : Z -> Z;
  host_query_batch_lens : Z -> Z;
  host_target_batch_lens : Z -> Z;
  host_res : gasal_res_t;
  lib : L
}.

Arguments mkStorage {L}.
Arguments current_n_alns {L}.
Arguments host_query_batch_offsets {L}.
Arguments host_target_batch_offsets {L}.
Arguments host_query_batch_lens {L}.
Arguments host_target_batch_lens {L}.
Arguments host_res {L}.
Arguments lib {L}.

(** Assignment [a[i] = v] to a C array. *)
Definition upd (a : Z -> Z) (i v : Z) : Z -> Z :=
  fun j => if j =? i then v else a j.

(** The [n] cells of a C array from index [off] on. *)
Definition read_at {A : Type} (buf : Z -> A) (off n : Z) : list A :=
  map (fun i => buf (off + Z.of_nat i)) (seq 0 (Z.to_nat n)).

(** Copy of [data] into a C array from index [off] on. *)
Definition write_at {A : Type} (d : A) (buf : Z -> A) (off : Z)
    (data : list A) : Z -> A :=
  fun j =>
    if (off <=? j) && (j <? off + Z.of_nat (length data))
    then nth (Z.to_nat (j - off)) data d
    else buf j.

Definition set_current_n_alns {L} (v : Z) (st : gasal_gpu_storage_t L) :=
  mkStorage v (host_query_batch_offsets st) (host_target_batch_offsets st)
    (host_query_batch_lens st) (host_target_batch_lens st)
    (host_res st) (lib st).

Definition set_host_query_batch_offsets {L} (i v : Z)
    (st : gasal_gpu_storage_t L) :=
  mkStorage (current_n_alns st) (upd (host_query_batch_offsets st) i v)
    (host_target_batch_offsets st)
    (host_query_batch_lens st) (host_target_batch_lens st)
    (host_res st) (lib st).

Definition set_host_target_batch_offsets {L} (i v : Z)
    (st : gasal_gpu_storage_t L) :=
  mkStorage (current_n_alns st) (host_query_batch_offsets st)
    (upd (host_target_batch_offsets st) i v)
    (host_query_batch_lens st) (host_target_batch_lens st)
    (host_res st) (lib st).

Definition set_host_query_batch_lens {L} (i v : Z)
    (st : gasal_gpu_storage_t L) :=
  mkStorage (current_n_alns st) (host_query_batch_offsets st)
    (host_target_batch_offsets st)
    (upd (host_query_batch_lens st) i v) (host_target_batch_lens st)
    (host_res st) (lib st).

Definition set_host_target_batch_lens {L} (i v : Z)
    (st : gasal_gpu_storage_t L) :=
  mkStorage (current_n_alns st) (host_query_batch_offsets st)
    (host_target_batch_offsets st)
    (host_query_batch_lens st) (upd (host_target_batch_lens st) i v)
    (host_res st) (lib st).

(** The library calls made by the wrapper; their code is not among the
    sources, so they are parameters of the model.  Each takes the storage
    it is handed by pointer and gives back the storage as the call leaves
    it.  [Parameters] is passed by value: the library reads it.  [L] at
    the constructor calls is the library state the process is in. *)
Class Backend (L : Type) : Type := mkBackend {
  gasal_copy_subst_scores : gasal_subst_scores -> L -> L;
  (** [gasal_init_gpu_storage_v(1)]: the vector's only element, [a[0]]. *)
  gasal_init_gpu_storage_v : Z -> L -> gasal_gpu_storage_t L;
  gasal_init_streams :
    gasal_gpu_storage_t L -> Z -> Z -> Z -> Parameters ->
    gasal_gpu_storage_t L;
  gasal_host_batch_fill :
    gasal_gpu_storage_t L -> Z -> list ascii -> Z -> data_source ->
    gasal_gpu_storage_t L * Z;
  gasal_op_fill :
    gasal_gpu_storage_t L -> Z -> Z -> data_source -> gasal_gpu_storage_t L;
  gasal_aln_async :
    gasal_gpu_storage_t L -> Z -> Z -> Z -> Parameters ->
    gasal_gpu_storage_t L;
  gasal_is_aln_async_done :
    gasal_gpu_storage_t L -> gasal_gpu_storage_t L * Z
}.

(** ** The wrapper's types *)

(** [struct PAlign]. *)
Record PAlign : Type := mkPAlign {
  score : Z;
  q_beg : Z;
  q_end : Z;
  s_beg : Z;
  s_end : Z;
  p_cigar : list Z          (* member [cigar]: raw GASAL2 CIGAR bytes *)
}.

(** The private members of [class GasalAligner]; [stor_v_] holds
    [stor_v_.a[0]], the only storage of the vector. *)
Record GasalAligner (L : Type) : Type := mkAligner {
  subst_ : gasal_subst_scores;
  args_ : Parameters;
  stor_v_ : gasal_gpu_storage_t L;
  max_q_ : Z;
  max_t_ : Z
}.

Arguments mkAligner {L}.
Arguments subst_ {L}.
Arguments args_ {L}.
Arguments stor_v_ {L}.
Arguments max_q_ {L}.
Arguments max_t_ {L}.

(** ** Effects: exceptions, the call log, the wait loop *)

Inductive exn : Type := runtime_error (what : string).

(** The exception thrown by the length check. *)
Definition LengthExceeded : exn :=
  runtime_error "Sequence length exceeds configured max_q/max_t".

(** One entry per library call, with the arguments passed (and, for the
    completion query, the value returned). *)
Inductive event : Type :=
| call_host_batch_fill (idx : Z) (data : list ascii) (sz : Z)
    (src : data_source)
| call_op_fill (data nbr : Z) (src : data_source)
| call_aln_async (q_bytes t_bytes n_alns : Z) (p : Parameters)
| call_is_aln_async_done (ret : Z).

(** How a computation ends: it returns, it throws, or the wait loop is
    still spinning when the fuel is spent. *)
Inductive outcome (A : Type) : Type :=
| Ret (a : A)
| Throw (e : exn)
| Spinning.

Arguments Ret {A}.
Arguments Throw {A}.
Arguments Spinning {A}.

(** The state a call of [align] runs in: the storage and the call log. *)
Definition world (L : Type) : Type := (gasal_gpu_storage_t L * list event)%type.

Definition M (L A : Type) : Type := world L -> outcome A * world L.

Definition ret {L A} (a : A) : M L A := fun w => (Ret a, w).

Definition bind {L A B} (m : M L A) (k : A -> M L B) : M L B :=
  fun w =>
    match m w with
    | (Ret a, w') => k a w'
    | (Throw e, w') => (Throw e, w')
    | (Spinning, w') => (Spinning, w')
    end.

Definition throw {L A} (e : exn) : M L A := fun w => (Throw e, w).

Definition get_stor {L} : M L (gasal_gpu_storage_t L) :=
  fun w => (Ret (fst w), w).

Definition modify {L} (f : gasal_gpu_storage_t L -> gasal_gpu_storage_t L)
  : M L unit :=
  fun w => (Ret tt, (f (fst w), snd w)).

Declare Scope m_scope.
Delimit Scope m_scope with m.
Notation "x <- m ;; k" := (bind m (fun x => k))
  (at level 61, m at next level, right associativity) : m_scope.
Notation "m ;;; k" := (bind m (fun _ => k))
  (at level 61, right associativity) : m_scope.

(** ** The wrapper *)

Section Wrapper.

Context {L : Type} {B : Backend L}.

Local Open Scope m_scope.

(** The library calls, as the wrapper performs them on [stor]: the call
    is logged, the storage is replaced by the one the library leaves. *)
Definition host_batch_fill (idx : Z) (data : list ascii) (sz : Z)
    (src : data_source) : M L Z :=
  fun w =>
    let (st', r) := gasal_host_batch_fill (fst w) idx data sz src in
    (Ret r, (st', snd w ++ [call_host_batch_fill idx data sz src])).

Definition op_fill (data nbr : Z) (src : data_source) : M L unit :=
  fun w =>
    (Ret tt, (gasal_op_fill (fst w) data nbr src,
              snd w ++ [call_op_fill data nbr src])).

Definition aln_async (q_bytes t_bytes n_alns : Z) (p : Parameters)
  : M L unit :=
  fun w =>
    (Ret tt, (gasal_aln_async (fst w) q_bytes t_bytes n_alns p,
              snd w ++ [call_aln_async q_bytes t_bytes n_alns p])).

Definition is_aln_async_done : M L Z :=
  fun w =>
    let (st', r) := gasal_is_aln_async_done (fst w) in
    (Ret r, (st', snd w ++ [call_is_aln_async_done r])).

(** [while (gasal_is_aln_async_done(&stor) == -1) {}]: one unit of fuel
    per evaluation of the condition. *)
Fixpoint wait_done (fuel : nat) : M L unit :=
  match fuel with
  | O => fun w => (Spinning, w)
  | S fuel' =>
      r <- is_aln_async_done ;;
      if r =? -1 then wait_done fuel' else ret tt
  end.

(** The condition of the [if] that guards the [throw]. *)
Definition length_exceeded (max_q max_t : Z) (q s : list ascii) : bool :=
  (Int.to_int (size q) >? max_q) || (Int.to_int (size s) >? max_t).

(** Step 2 of [align]: the slot count is cleared, both sequences are
    handed to [gasal_host_batch_fill], slot 0 of the offset and length
    tables is written, the slot count is set to one, and the two
    [gasal_op_fill] calls are made. *)
Definition fill_batch (q s : list ascii) : M L unit :=
  modify (set_current_n_alns 0) ;;;
  q_off <- host_batch_fill 0 q (Int.to_uint32 (size q)) QUERY ;;
  t_off <- host_batch_fill 0 s (Int.to_uint32 (size s)) TARGET ;;
  modify (set_host_query_batch_offsets 0 (Int.to_uint32 q_off)) ;;;
  modify (set_host_target_batch_offsets 0 (Int.to_uint32 t_off)) ;;;
  modify (set_host_query_batch_lens 0 (Int.to_uint32 (size q))) ;;;
  modify (set_host_target_batch_lens 0 (Int.to_uint32 (size s))) ;;;
  modify (set_current_n_alns 1) ;;;
  op_fill 0 0 QUERY ;;;
  op_fill 0 0 TARGET.

(** Step 3 up to the launch: the two byte counts are computed from the
    stored lengths and the batch is submitted with [n_alns = 1]. *)
Definition submit (p : Parameters) : M L unit :=
  st <- get_stor ;;
  let q_bytes :=
    packed_bytes_rounded (Int.to_uint32 (host_query_batch_lens st 0)) in
  let t_bytes :=
    packed_bytes_rounded (Int.to_uint32 (host_target_batch_lens st 0)) in
  aln_async q_bytes t_bytes 1 p.

(** [std::vector<uint8_t>(cb, ce)] with [cb = R.cigar + c0] and
    [ce = cb + n]: the bytes [R.cigar[c0]], ..., [R.cigar[c0 + n - 1]]. *)
Definition cigar_bytes (R : gasal_res_t) (c0 n : Z) : list Z :=
  map Int.to_uint8 (read_at (cigar R) c0 n).

(** The tail of [align]: slot [idx = 0] of the result arrays is read. *)
Definition extract (st : gasal_gpu_storage_t L) : PAlign :=
  let R := host_res st in
  let idx := 0 in
  let c0 := Int.to_uint32 (host_query_batch_offsets st idx) in
  let n := Int.to_uint32 (n_cigar_ops R idx) in
  mkPAlign (Int.to_int (aln_score R idx))
           (Int.to_int (query_batch_start R idx))
           (Int.to_int (query_batch_end R idx))
           (Int.to_int (target_batch_start R idx))
           (Int.to_int (target_batch_end R idx))
           (cigar_bytes R c0 n).

(** The body of [GasalAligner::align], run on the storage and the log. *)
Definition align_body (a : GasalAligner L) (q_in s_in : list ascii)
    (fuel : nat) : M L PAlign :=
  let q := sanitize q_in in
  let s := sanitize s_in in
  if length_exceeded (max_q_ a) (max_t_ a) q s
  then throw LengthExceeded
  else
    fill_batch q s ;;;
    submit (args_ a) ;;;
    wait_done fuel ;;;
    st <- get_stor ;;
    ret (extract st).

(** [GasalAligner::align]: the outcome, the object after the call, and
    the library calls made by this call, in order. *)
Definition align (a : GasalAligner L) (q_in s_in : list ascii)
    (fuel : nat) : outcome PAlign * GasalAligner L * list event :=
  let (o, w) := align_body a q_in s_in fuel (stor_v_ a, []) in
  (o, mkAligner (subst_ a) (args_ a) (fst w) (max_q_ a) (max_t_ a), snd w).

(** The constructor, run in library state [l]. *)
Definition GasalAligner_new (l : L)
    (match_score mismatch_score gap_open_score gap_extend_score : Z)
    (max_q max_t : Z) : GasalAligner L :=
  let subst :=
    mkSubst match_score mismatch_score gap_open_score gap_extend_score in
  let l1 := gasal_copy_subst_scores subst l in
  let args := mkParameters SEMI_GLOBAL WITH_TB QUERY QUERY in
  let stor_v := gasal_init_gpu_storage_v 1 l1 in
  let stor_v' := gasal_init_streams stor_v max_q max_t 1 args in
  mkAligner subst args stor_v' max_q max_t.

(** The constructor with the default arguments [max_q = 2048] and
    [max_t = 8192]. *)
Definition GasalAligner_default (l : L)
    (match_score mismatch_score gap_open_score gap_extend_score : Z)
  : GasalAligner L :=
  GasalAligner_new l match_score mismatch_score gap_open_score
    gap_extend_score 2048 8192.

(** A sequence of [align] calls on one object: for each call, oldest
    first, its outcome and the library calls it made; and the object
    after the last call. *)
Fixpoint align_many (a : GasalAligner L)
    (calls : list (list ascii * list ascii * nat))
  : list (outcome PAlign * list event) * GasalAligner L :=
  match calls with
  | [] => ([], a)
  | (q, s, fuel) :: rest =>
      let '(o, a', lg) := align a q s fuel in
      let (os, a'') := align_many a' rest in
      ((o, lg) :: os, a'')
  end.

(** The storage answers "not done" ([-1]) to exactly the next [k]
    completion queries and something else to the one after. *)
Fixpoint pending_for (k : nat) (st : gasal_gpu_storage_t L) : Prop :=
  match k with
  | O => snd (gasal_is_aln_async_done st) <> -1
  | S k' =>
      snd (gasal_is_aln_async_done st) = -1
      /\ pending_for k' (fst (gasal_is_aln_async_done st))
  end.

(** The storage after [k] completion queries. *)
Fixpoint after_polls (k : nat) (st : gasal_gpu_storage_t L)
  : gasal_gpu_storage_t L :=
  match k with
  | O => st
  | S k' => after_polls k' (fst (gasal_is_aln_async_done st))
  end.

(** The answer to the completion query made after [k] earlier ones. *)
Definition answer (k : nat) (st : gasal_gpu_storage_t L) : Z :=
  snd (gasal_is_aln_async_done (after_polls k st)).

(** The storage as step 2 leaves it, and the calls step 2 makes. *)
Definition filled (st : gasal_gpu_storage_t L) (q s : list ascii)
  : gasal_gpu_storage_t L :=
  fst (snd (fill_batch q s (st, []))).

Definition fill_events (q s : list ascii) : list event :=
  [call_host_batch_fill 0 q (Int.to_uint32 (size q)) QUERY;
   call_host_batch_fill 0 s (Int.to_uint32 (size s)) TARGET;
   call_op_fill 0 0 QUERY;
   call_op_fill 0 0 TARGET].

(** The launch made on a filled storage, and the storage it leaves. *)
Definition submit_event (p : Parameters) (st : gasal_gpu_storage_t L)
  : event :=
  call_aln_async
    (packed_bytes_rounded (Int.to_uint32 (host_query_batch_lens st 0)))
    (packed_bytes_rounded (Int.to_uint32 (host_target_batch_lens st 0)))
    1 p.

Definition submitted (p : Parameters) (st : gasal_gpu_storage_t L)
    (q s : list ascii) : gasal_gpu_storage_t L :=
  fst (snd (bind (fill_batch q s) (fun _ => submit p) (st, []))).

(** [k] completion queries answered "not done", then one answered [r]. *)
Definition poll_events (k : nat) (r : Z) : list event :=
  repeat (call_is_aln_async_done (-1)) k ++ [call_is_aln_async_done r].

End Wrapper.

(** Strings for the examples. *)
Definition str (s : string) : list ascii := list_ascii_of_string s.

(** A query of 2147483648 bases, one more than the largest [int]. *)
Definition overlong_query : list ascii :=
  repeat "A"%char (Z.to_nat 2147483648).

(** ** The Python view of [PAlign] *)

(** The Python values that the module [gasalwrap] produces for the
    attributes of a [PAlign], and tuples, for comparison with the
    specification's edit script. *)
#[local] Unset Elimination Schemes.

Inductive pyobject : Type :=
| PyLong (z : Z)
| PyList (items : list pyobject)
| PyTuple (items : list pyobject).

#[local] Set Elimination Schemes.

(** [py::class_<PAlign>] with its six [def_readonly] attributes: an [int]
    member is read as a Python int, the [std::vector<uint8_t>] member as a
    Python list of ints (the conversion of [pybind11/stl.h]). *)
Definition PAlign_getattr (r : PAlign) (name : string) : option pyobject :=
  if String.eqb name "score" then Some (PyLong (score r))
  else if String.eqb name "q_beg" then Some (PyLong (q_beg r))
  else if String.eqb name "q_end" then Some (PyLong (q_end r))
  else if String.eqb name "s_beg" then Some (PyLong (s_beg r))
  else if String.eqb name "s_end" then Some (PyLong (s_end r))
  else if String.eqb name "cigar" then Some (PyList (map PyLong (p_cigar r)))
  else None.

(** The edit script of the specification: runs of one operation. *)
Inductive edit_op : Type := MatchMismatch | Insertion | Deletion.

Definition edit_script : Type := list (edit_op * Z).

(** An edit script as a Python value: a list of 2-tuples. *)
Definition py_of_edit_op (o : edit_op) : pyobject :=
  PyLong (match o with MatchMismatch => 0 | Insertion => 1 | Deletion => 2 end).

Definition py_of_edit_script (e : edit_script) : pyobject :=
  PyList (map (fun r => PyTuple [py_of_edit_op (fst r); PyLong (snd r)]) e).

(** A Python value that is a pair [(operation, run_length)]: a 2-tuple
    whose run length is an int. *)
Definition is_run (o : pyobject) : bool :=
  match o with
  | PyTuple [_; PyLong _] => true
  | _ => false
  end.

(** A Python value that is an ordered sequence of such pairs. *)
Definition is_edit_script (o : pyobject) : bool :=
  match o with
  | PyList items => forallb is_run items
  | _ => false
  end.

(** A Python value that is a sequence of bytes given as ints. *)
Definition is_byte_list (o : pyobject) : bool :=
  match o with
  | PyList items =>
      forallb (fun i => match i with PyLong _ => true | _ => false end) items
  | _ => false
  end.

(** ** An example library *)

Module Ref.

(** Modelled from the spec: what the AlignmentEngine (4.4) computes for
    one request: score, begin and end on each sequence, and the encoded
    edit script.  The engine itself is not among the sources. *)
Record slot_result : Type := mkSlot {
  r_score : Z;
  r_q_beg : Z;
  r_q_end : Z;
  r_t_beg : Z;
  r_t_end : Z;
  r_cigar : list Z
}.

(** Modelled from the spec: the ExecutionHandle of section 3.  A batch is
    either not in flight, or Pending with the number of completion polls
    that will still answer Pending and the results that become visible,
    all at once, at the Done transition (section 5). *)
Inductive handle_state : Type :=
| Idle
| Pending (polls_left : nat) (res : gasal_res_t).

(** Modelled from the spec: the library side of BatchStorage (4.3) and
    AsyncExecutor (4.6): the scores, the shared query and target buffers,
    the handle, and the number of polls a submitted batch stays Pending. *)
Record lib_state : Type := mkLib {
  scores : gasal_subst_scores;
  query_batch : Z -> ascii;
  target_batch : Z -> ascii;
  latency : nat;
  handle : handle_state
}.

Definition set_handle (h : handle_state) (l : lib_state) : lib_state :=
  mkLib (scores l) (query_batch l) (target_batch l) (latency l) h.

(** Modelled from the spec: section 4.1.  The first [sz] bytes of
    [data], then padding bases N up to the bases that the packed length
    of [sz] bases covers. *)
Definition padded (data : list ascii) (sz : Z) : list ascii :=
  firstn (Z.to_nat sz) data
  ++ repeat "N"%char (Z.to_nat (4 * packed_len_spec sz - sz)).

(** What the fill call returns for a sequence placed at offset [idx]
    that takes [n] bytes with its padding.  The specification (4.3) has
    the bytes copied at the next free offset and an offset recorded, and
    does not say which value the call hands back; the two readings are
    the offset at which the sequence was placed, and the next free
    offset. *)
Definition placed (idx n : Z) : Z := idx.


Section Engine.

Variable returned : Z -> Z -> Z.

(** Modelled from the spec: the AlignmentEngine with TracebackDecoder
    (4.4, 4.5), a function of the scores, the free-end settings and the
    two sequences of a request. *)
Variable engine :
  gasal_subst_scores -> Parameters -> list ascii -> list ascii -> slot_result.

(** Modelled from the spec: section 4.1 and 4.3.  [size] bytes of [data]
    are copied into the buffer of [src] at offset [idx], followed by
    padding bases N up to the bases that the packed length covers.  The
    value returned is [returned idx n], with [n] the bytes taken: the
    specification does not fix it. *)
Definition batch_add (st : gasal_gpu_storage_t lib_state) (idx : Z)
    (data : list ascii) (sz : Z) (src : data_source)
  : gasal_gpu_storage_t lib_state * Z :=
  let l := lib st in
  let l' :=
    match src with
    | QUERY =>
        mkLib (scores l) (write_at "N"%char (query_batch l) idx (padded data sz))
          (target_batch l) (latency l) (handle l)
    | TARGET =>
        mkLib (scores l) (query_batch l)
          (write_at "N"%char (target_batch l) idx (padded data sz))
          (latency l) (handle l)
    | _ => l
    end in
  (mkStorage (current_n_alns st) (host_query_batch_offsets st)
     (host_target_batch_offsets st) (host_query_batch_lens st)
     (host_target_batch_lens st) (host_res st) l',
   returned idx (Z.of_nat (length (padded data sz)))).

(** Modelled from the spec: the result of request [i] of a batch (4.4,
    4.7): the engine runs on the bytes that the slot's offsets and
    lengths delimit; the encoded edit script of the slot is stored at the
    slot's query offset. *)
Definition run_slot (p : Parameters) (st : gasal_gpu_storage_t lib_state)
    (R : gasal_res_t) (i : Z) : gasal_res_t :=
  let l := lib st in
  let q := read_at (query_batch l) (host_query_batch_offsets st i)
             (host_query_batch_lens st i) in
  let t := read_at (target_batch l) (host_target_batch_offsets st i)
             (host_target_batch_lens st i) in
  let r := engine (scores l) p q t in
  mkRes (upd (aln_score R) i (r_score r))
        (upd (query_batch_start R) i (r_q_beg r))
        (upd (query_batch_end R) i (r_q_end r))
        (upd (target_batch_start R) i (r_t_beg r))
        (upd (target_batch_end R) i (r_t_end r))
        (upd (n_cigar_ops R) i (Z.of_nat (length (r_cigar r))))
        (write_at 0 (cigar R) (host_query_batch_offsets st i) (r_cigar r)).

(** Modelled from the spec: the engine computes every request of the
    submitted batch (4.4), slots 0 to [n_alns - 1]. *)
Definition run_batch (p : Parameters) (st : gasal_gpu_storage_t lib_state)
    (n_alns : Z) : gasal_res_t :=
  fold_left (run_slot p st) (map Z.of_nat (seq 0 (Z.to_nat n_alns)))
    (host_res st).

(** Modelled from the spec: [submit] of 4.6.  An idle storage becomes
    Pending; a storage already in flight is left alone. *)
Definition executor_submit (st : gasal_gpu_storage_t lib_state)
    (q_bytes t_bytes n_alns : Z) (p : Parameters)
  : gasal_gpu_storage_t lib_state :=
  match handle (lib st) with
  | Idle =>
      mkStorage (current_n_alns st) (host_query_batch_offsets st)
        (host_target_batch_offsets st) (host_query_batch_lens st)
        (host_target_batch_lens st) (host_res st)
        (set_handle (Pending (latency (lib st)) (run_batch p st n_alns))
           (lib st))
  | Pending _ _ => st
  end.

(** Modelled from the spec: the Done transition (section 5): the results
    of the batch replace the result arrays, nothing is in flight. *)
Definition at_done (st : gasal_gpu_storage_t lib_state) (R : gasal_res_t)
  : gasal_gpu_storage_t lib_state :=
  mkStorage (current_n_alns st) (host_query_batch_offsets st)
    (host_target_batch_offsets st) (host_query_batch_lens st)
    (host_target_batch_lens st) R (set_handle Idle (lib st)).

(** Modelled from the spec: [poll] of 4.6, answering [-1] for Pending
    and [0] for Done; the results appear at the Done transition, and
    polling after Done gives Done again. *)
Definition executor_poll (st : gasal_gpu_storage_t lib_state)
  : gasal_gpu_storage_t lib_state * Z :=
  match handle (lib st) with
  | Idle => (st, 0)
  | Pending (S k) R =>
      (mkStorage (current_n_alns st) (host_query_batch_offsets st)
         (host_target_batch_offsets st) (host_query_batch_lens st)
         (host_target_batch_lens st) (host_res st)
         (set_handle (Pending k R) (lib st)), -1)
  | Pending O R => (at_done st R, 0)
  end.

Definition zeros : Z -> Z := fun _ => 0.

(** Modelled from the spec: construction (section 3, Lifecycle): the
    scores are fixed, the buffers and tables allocated, nothing is in
    flight. *)
Definition copy_subst_scores (sc : gasal_subst_scores) (l : lib_state)
  : lib_state :=
  mkLib sc (query_batch l) (target_batch l) (latency l) (handle l).

(** Modelled from the spec: a new batch storage: no request, tables and
    result arrays zeroed, nothing in flight. *)
Definition init_gpu_storage_v (n : Z) (l : lib_state)
  : gasal_gpu_storage_t lib_state :=
  mkStorage 0 zeros zeros zeros zeros
    (mkRes zeros zeros zeros zeros zeros zeros zeros)
    (set_handle Idle l).

(** Modelled from the spec: the library as a whole.  The two
    [gasal_op_fill] calls and [gasal_init_streams] have no counterpart in
    the specification and leave the storage as it is. *)
#[local] Instance backend : Backend lib_state := {|
  gasal_copy_subst_scores := copy_subst_scores;
  gasal_init_gpu_storage_v := init_gpu_storage_v;
  gasal_init_streams := fun st _ _ _ _ => st;
  gasal_host_batch_fill := batch_add;
  gasal_op_fill := fun st _ _ _ => st;
  gasal_aln_async := executor_submit;
  gasal_is_aln_async_done := executor_poll
|}.

(** The storage of an aligner is not in flight. *)
Definition idle (a : GasalAligner lib_state) : Prop :=
  handle (lib (stor_v_ a)) = Idle.

(** Two aligners built with the same parameters: the same scores, the
    same free-end settings and the same maxima.  Their storages may hold
    anything. *)
Definition same_parameters (a1 a2 : GasalAligner lib_state) : Prop :=
  scores (lib (stor_v_ a1)) = scores (lib (stor_v_ a2))
  /\ args_ a1 = args_ a2
  /\ max_q_ a1 = max_q_ a2
  /\ max_t_ a1 = max_t_ a2.

(** The request in slot [i] of a batch: what the slot's tables and the
    shared buffers hold for it. *)
Definition request (st : gasal_gpu_storage_t lib_state) (i : Z)
  : (Z * Z * list ascii) * (Z * Z * list ascii) :=
  ((host_query_batch_offsets st i, host_query_batch_lens st i,
    read_at (query_batch (lib st)) (host_query_batch_offsets st i)
      (host_query_batch_lens st i)),
   (host_target_batch_offsets st i, host_target_batch_lens st i,
    read_at (target_batch (lib st)) (host_target_batch_offsets st i)
      (host_target_batch_lens st i))).

(** The result of [align] as a function of the parameters and the two
    input strings only. *)
Definition align_result (sc : gasal_subst_scores) (p : Parameters)
    (q_in s_in : list ascii) : PAlign :=
  let q := sanitize q_in in
  let s := sanitize s_in in
  let r := engine sc p (firstn (Z.to_nat (Int.to_uint32 (size q))) q)
             (firstn (Z.to_nat (Int.to_uint32 (size s))) s) in
  mkPAlign (Int.to_int (r_score r)) (Int.to_int (r_q_beg r))
    (Int.to_int (r_q_end r)) (Int.to_int (r_t_beg r))
    (Int.to_int (r_t_end r))
    (map Int.to_uint8
       (firstn (Z.to_nat (Int.to_uint32 (Z.of_nat (length (r_cigar r)))))
          (r_cigar r))).

End Engine.

(** An engine to run the model on concrete inputs: the two sequences are
    compared position by position, without gaps.  One CIGAR byte per
    position, run length 1 in the upper six bits, operation in the lower
    two (0 for a match, 1 for a mismatch). *)
Definition base_score (sc : gasal_subst_scores) (a b : ascii) : Z :=
  if Ascii.eqb a b && negb (Ascii.eqb a "N") then match_ sc else mismatch sc.

Fixpoint ungapped (sc : gasal_subst_scores) (q t : list ascii)
  : Z * list Z :=
  match q, t with
  | a :: q', b :: t' =>
      let (sco, ops) := ungapped sc q' t' in
      (base_score sc a b + sco,
       (if Ascii.eqb a b && negb (Ascii.eqb a "N") then 4 else 5) :: ops)
  | _, _ => (0, [])
  end.

Definition ungapped_engine (sc : gasal_subst_scores) (p : Parameters)
    (q t : list ascii) : slot_result :=
  let (sco, ops) := ungapped sc q t in
  let n := Z.of_nat (length ops) in
  mkSlot sco 0 n 0 n ops.

(** A library state before any aligner is built: empty buffers, scores
    all zero, and a batch stays Pending for [lat] polls. *)
Definition fresh (lat : nat) : lib_state :=
  mkLib (mkSubst 0 0 0 0) (fun _ => "N"%char) (fun _ => "N"%char) lat Idle.

End Ref.

(** A library whose completion query always answers "not done". *)
Definition stuck_backend : Backend unit := {|
  gasal_copy_subst_scores := fun _ l => l;
  gasal_init_gpu_storage_v := fun _ l =>
    mkStorage 0 (fun _ => 0) (fun _ => 0) (fun _ => 0) (fun _ => 0)
      (mkRes (fun _ => 0) (fun _ => 0) (fun _ => 0) (fun _ => 0)
         (fun _ => 0) (fun _ => 0) (fun _ => 0)) l;
  gasal_init_streams := fun st _ _ _ _ => st;
  gasal_host_batch_fill := fun st idx _ _ _ => (st, idx);
  gasal_op_fill := fun st _ _ _ => st;
  gasal_aln_async := fun st _ _ _ _ => st;
  gasal_is_aln_async_done := fun st => (st, -1)
|}.

(** ** Concrete runs *)

(** The example library with the ungapped engine, the fill call
    returning the offset at which it placed the sequence. *)
Definition example_backend : Backend Ref.lib_state :=
  Ref.backend Ref.placed Ref.ungapped_engine.

(** [GasalAligner(2, -1, -2, -1)] on a library where a batch stays
    Pending for three polls. *)
Definition example_aligner : GasalAligner Ref.lib_state :=
  @GasalAligner_default _ example_backend (Ref.fresh 3) 2 (-1) (-2) (-1).

(** [align("acgtx", "ACGA")] on the new object. *)
Definition example_run
  : outcome PAlign * GasalAligner Ref.lib_state * list event :=
  @align _ example_backend example_aligner (str "acgtx") (str "ACGA") 10.


(** [GasalAligner(2, -1, -2, -1)] on the library that never completes. *)
Definition stuck_aligner : GasalAligner unit :=
  @GasalAligner_default _ stuck_backend tt 2 (-1) (-2) (-1).

(** [GasalAligner(2, -1, -2, -1, -1, 8192)]: a negative [max_q]. *)
Definition refusing_aligner : GasalAligner Ref.lib_state :=
  @GasalAligner_new _ example_backend (Ref.fresh 3) 2 (-1) (-2) (-1)
    (-1) 8192.

(** A storage of another library that agrees with the storage left by
    [example_run] on slot 0 and on the four CIGAR bytes, and on nothing
    else. *)
Definition other_storage : gasal_gpu_storage_t unit :=
  mkStorage 7
    (fun i => if i =? 0 then 0 else 40) (fun _ => 9) (fun _ => 9)
    (fun _ => 9)
    (mkRes (fun i => if i =? 0 then 5 else 99)
       (fun i => if i =? 0 then 0 else 99)
       (fun i => if i =? 0 then 4 else 99)
       (fun i => if i =? 0 then 0 else 99)
       (fun i => if i =? 0 then 4 else 99)
       (fun i => if i =? 0 then 4 else 99)
       (fun i => nth (Z.to_nat i) [4; 4; 4; 5] 77))
    tt.

(** ** Observations on a call log and on a storage *)

(** The launches among the library calls of a log. *)
Definition is_launch (e : event) : bool :=
  match e with
  | call_aln_async _ _ _ _ => true
  | _ => false
  end.

Definition count_launches (lg : list event) : nat :=
  length (filter is_launch lg).

(** The attribute names that [py::class_<PAlign>] defines. *)
Definition PAlign_attributes : list string :=
  ["score"%string; "q_beg"%string; "q_end"%string; "s_beg"%string;
   "s_end"%string; "cigar"%string].

(** Two storages agree on what the tail of [align] reads: slot 0 of the
    query offsets and of the six result arrays, and the CIGAR bytes from
    that offset on, as many as slot 0 of [n_cigar_ops] says. *)
Definition same_slot_0 {L1 L2 : Type} (st1 : gasal_gpu_storage_t L1)
    (st2 : gasal_gpu_storage_t L2) : Prop :=
  host_query_batch_offsets st1 0 = host_query_batch_offsets st2 0
  /\ aln_score (host_res st1) 0 = aln_score (host_res st2) 0
  /\ query_batch_start (host_res st1) 0 = query_batch_start (host_res st2) 0
  /\ query_batch_end (host_res st1) 0 = query_batch_end (host_res st2) 0
  /\ target_batch_start (host_res st1) 0
     = target_batch_start (host_res st2) 0
  /\ target_batch_end (host_res st1) 0 = target_batch_end (host_res st2) 0
  /\ n_cigar_ops (host_res st1) 0 = n_cigar_ops (host_res st2) 0
  /\ forall i,
       0 <= i < Int.to_uint32 (n_cigar_ops (host_res st1) 0) ->
       cigar (host_res st1)
         (Int.to_uint32 (host_query_batch_offsets st1 0) + i)
       = cigar (host_res st2)
           (Int.to_uint32 (host_query_batch_offsets st1 0) + i).

(** ** Step 2 of [align], as the library and a reader of the storage
    see it *)

(** [st'] is [st] with the slot count set to 0 (line 71) and nothing
    else changed. *)
Definition count_cleared {L : Type} (st st' : gasal_gpu_storage_t L) : Prop :=
  current_n_alns st' = 0
  /\ host_query_batch_offsets st' = host_query_batch_offsets st
  /\ host_target_batch_offsets st' = host_target_batch_offsets st
  /\ host_query_batch_lens st' = host_query_batch_lens st
  /\ host_target_batch_lens st' = host_target_batch_lens st
  /\ host_res st' = host_res st
  /\ lib st' = lib st.

(** [st'] is [st] after lines 76 to 80: entry 0 of the two offset tables
    and of the two length tables holds the values given, the slot count
    is 1, and every other entry, the result arrays and the library's
    state are those of [st]. *)
Definition slot_0_recorded {L : Type} (st st' : gasal_gpu_storage_t L)
    (q_off t_off q_len t_len : Z) : Prop :=
  current_n_alns st' = 1
  /\ host_query_batch_offsets st' 0 = q_off
  /\ host_target_batch_offsets st' 0 = t_off
  /\ host_query_batch_lens st' 0 = q_len
  /\ host_target_batch_lens st' 0 = t_len
  /\ (forall i, i <> 0 ->
        host_query_batch_offsets st' i = host_query_batch_offsets st i
        /\ host_target_batch_offsets st' i = host_target_batch_offsets st i
        /\ host_query_batch_lens st' i = host_query_batch_lens st i
        /\ host_target_batch_lens st' i = host_target_batch_lens st i)
  /\ host_res st' = host_res st
  /\ lib st' = lib st.

(** Lines 71 to 83 as a relation between the storage on entry and the
    storage handed to the launch: the count is cleared, the query and
    then the target are given to [gasal_host_batch_fill] at offset 0 with
    their [uint32_t] sizes, slot 0 records the two values returned and
    the two sizes, the count becomes 1, and the two [gasal_op_fill] calls
    follow. *)
Definition batch_filled {L : Type} {B : Backend L}
    (st : gasal_gpu_storage_t L) (q s : list ascii)
    (st_f : gasal_gpu_storage_t L) : Prop :=
  exists st0 st1 q_off st2 t_off st3,
    count_cleared st st0
    /\ gasal_host_batch_fill st0 0 q (Int.to_uint32 (size q)) QUERY
       = (st1, q_off)
    /\ gasal_host_batch_fill st1 0 s (Int.to_uint32 (size s)) TARGET
       = (st2, t_off)
    /\ slot_0_recorded st2 st3 (Int.to_uint32 q_off) (Int.to_uint32 t_off)
         (Int.to_uint32 (size q)) (Int.to_uint32 (size s))
    /\ st_f = gasal_op_fill (gasal_op_fill st3 0 0 QUERY) 0 0 TARGET.



(** ** Further concrete runs *)

(** A query of 4294967295 bases, the largest [uint32_t]. *)
Definition query_4g : list ascii := repeat "A"%char (Z.to_nat 4294967295).






(* ================================================================== *)
(** * Part II.  Properties                                            *)
(* ================================================================== *)

(** ** Machine integers *)

Lemma to_uint32_small (z : Z) : 0 <= z < 2 ^ 32 -> Int.to_uint32 z = z.
Proof. intros H. unfold Int.to_uint32. apply Z.mod_small. exact H. Qed.

Lemma to_uint32_range (z : Z) : 0 <= Int.to_uint32 z < 2 ^ 32.
Proof. unfold Int.to_uint32. apply Z.mod_pos_bound. lia. Qed.

Lemma to_uint32_idem (z : Z) : Int.to_uint32 (Int.to_uint32 z) = Int.to_uint32 z.
Proof. apply to_uint32_small, to_uint32_range. Qed.

Lemma to_int_small (z : Z) : 0 <= z < 2 ^ 31 -> Int.to_int z = z.
Proof.
  intros H. unfold Int.to_int.
  rewrite Z.mod_small by lia.
  destruct (z <? 2 ^ 31) eqn:E; [reflexivity | apply Z.ltb_ge in E; lia].
Qed.

Lemma to_size_t_small (z : Z) : 0 <= z < 2 ^ 64 -> Int.to_size_t z = z.
Proof. intros H. unfold Int.to_size_t. apply Z.mod_small. exact H. Qed.

Lemma size_small (x : list ascii) :
  Z.of_nat (length x) < 2 ^ 64 -> size x = Z.of_nat (length x).
Proof. intros H. unfold size. apply to_size_t_small. lia. Qed.

(** ** Ceiling division *)

Lemma ceil_div_bounds (a b : Z) :
  0 < b -> b * (ceil_div a b - 1) < a <= b * ceil_div a b.
Proof.
  intros Hb. unfold ceil_div.
  pose proof (Z.div_mod (- a) b ltac:(lia)) as E.
  pose proof (Z.mod_pos_bound (- a) b Hb) as R.
  nia.
Qed.

(** [ceil_div a b] is the least [n] with [a <= b * n]. *)
Lemma ceil_div_least (a b n : Z) : 0 < b -> a <= b * n -> ceil_div a b <= n.
Proof.
  intros Hb Hn. pose proof (ceil_div_bounds a b Hb) as H. nia.
Qed.

Lemma ceil_div_add (a b : Z) : 0 < b -> ceil_div a b = (a + b - 1) / b.
Proof.
  intros Hb. pose proof (ceil_div_bounds a b Hb) as H.
  apply Z.div_unique_pos with (r := a + b - 1 - b * ceil_div a b); lia.
Qed.

(** [round_up_to_8 n] is a multiple of 8, at least [n], less than [n + 8]. *)
Lemma round_up_to_8_bounds (n : Z) :
  (round_up_to_8 n) mod 8 = 0 /\ n <= round_up_to_8 n < n + 8.
Proof.
  unfold round_up_to_8. split.
  - apply Z.mod_mul. lia.
  - pose proof (ceil_div_bounds n 8 ltac:(lia)). lia.
Qed.

(** ** Sanitization *)

Lemma sanitize_loop_map (x y : list ascii) :
  sanitize_loop x y = y ++ map sanitize_char x.
Proof.
  revert y. induction x as [| c x IH]; intros y; simpl.
  - now rewrite app_nil_r.
  - rewrite IH, <- app_assoc. reflexivity.
Qed.

Lemma sanitize_map (x : list ascii) : sanitize x = map sanitize_char x.
Proof. unfold sanitize. now rewrite sanitize_loop_map. Qed.

Lemma is_base_alphabet (u : ascii) : is_base u = true <-> In u alphabet.
Proof.
  unfold is_base, alphabet. rewrite !orb_true_iff, !Ascii.eqb_eq. simpl.
  intuition congruence.
Qed.

Lemma sanitize_char_spec (c : ascii) :
  sanitize_char c =
  if in_dec ascii_dec (toupper c) alphabet then toupper c else "N"%char.
Proof.
  unfold sanitize_char.
  destruct (in_dec ascii_dec (toupper c) alphabet) as [Hin | Hout].
  - apply is_base_alphabet in Hin. now rewrite Hin.
  - destruct (is_base (toupper c)) eqn:E; [| reflexivity].
    apply is_base_alphabet in E. contradiction.
Qed.

Lemma sanitize_char_base (c : ascii) : is_base (sanitize_char c) = true.
Proof.
  unfold sanitize_char. destruct (is_base (toupper c)) eqn:E; [exact E |].
  reflexivity.
Qed.

(** A base is its own upper case, so sanitizing it changes nothing. *)
Lemma sanitize_char_fix (u : ascii) : is_base u = true -> sanitize_char u = u.
Proof.
  intros H. apply is_base_alphabet in H. unfold alphabet in H. simpl in H.
  repeat (destruct H as [H | H]; [subst u; reflexivity |]).
  contradiction.
Qed.

Lemma length_sanitize (x : list ascii) : length (sanitize x) = length x.
Proof. rewrite sanitize_map. apply length_map. Qed.

Lemma size_sanitize (x : list ascii) : size (sanitize x) = size x.
Proof. unfold size. now rewrite length_sanitize. Qed.

Lemma sanitize_idempotent (x : list ascii) :
  sanitize (sanitize x) = sanitize x.
Proof.
  rewrite !sanitize_map, map_map. apply map_ext.
  intros c. apply sanitize_char_fix, sanitize_char_base.
Qed.

Lemma sanitize_nil : sanitize [] = [].
Proof. reflexivity. Qed.

Lemma sanitize_nth (x : list ascii) (i : nat) (c : ascii) :
  nth_error x i = Some c -> nth_error (sanitize x) i = Some (sanitize_char c).
Proof.
  intros H. rewrite sanitize_map. now apply map_nth_error.
Qed.

(** C2. For every input string, the empty one included, [sanitize]
    returns a string (it is a total function, there is no failing case),
    and that string is the input with each character replaced by its
    upper-cased form when that form is one of A, C, G, T, N and by N
    otherwise: the result has the length of the input and holds only
    characters of the alphabet. *)
Theorem sanitize_correct (x : list ascii) :
  sanitize x = sanitize_spec x
  /\ length (sanitize x) = length x
  /\ Forall (fun c => In c alphabet) (sanitize x).
Proof.
  split; [| split].
  - rewrite sanitize_map. unfold sanitize_spec. apply map_ext.
    exact sanitize_char_spec.
  - apply length_sanitize.
  - rewrite sanitize_map. apply Forall_map, Forall_forall.
    intros c _. apply is_base_alphabet, sanitize_char_base.
Qed.

Example sanitize_example :
  sanitize (str "acgtnxACGTN? z") = str "ACGTNNACGTNNNN".
Proof. reflexivity. Qed.

(** C9. Sanitization keeps the length and is idempotent, and the length
    check of [align] gives the same answer on the sanitized strings as on
    the raw ones. *)
Theorem sanitize_length_idempotent_guard
    (max_q max_t : Z) (q s : list ascii) :
  length (sanitize q) = length q
  /\ sanitize (sanitize q) = sanitize q
  /\ length_exceeded max_q max_t (sanitize q) (sanitize s)
     = length_exceeded max_q max_t q s.
Proof.
  split; [| split].
  - apply length_sanitize.
  - apply sanitize_idempotent.
  - unfold length_exceeded. now rewrite !size_sanitize.
Qed.

(** ** Packed byte count *)

Lemma packed_bytes_rounded_in_range (L : Z) :
  0 <= L <= 4294967292 ->
  packed_bytes_rounded L = (((L + 3) / 4 + 7) / 8) * 8.
Proof.
  intros H. unfold packed_bytes_rounded. cbv zeta.
  rewrite (to_uint32_small (L + 3)) by (change (2 ^ 32) with 4294967296; lia).
  assert (Hb : 0 <= (L + 3) / 4 <= 1073741823).
  { Z.div_mod_to_equations. lia. }
  rewrite (to_uint32_small ((L + 3) / 4 + 7))
    by (change (2 ^ 32) with 4294967296; lia).
  assert (Hc : 0 <= ((L + 3) / 4 + 7) / 8 <= 134217728).
  { Z.div_mod_to_equations. lia. }
  rewrite to_uint32_small by (change (2 ^ 32) with 4294967296; lia).
  apply to_int_small. change (2 ^ 31) with 2147483648. lia.
Qed.

(** X17. For every length [L] from 0 to 4294967292 (every [uint32_t]
    for which [L + 3] does not wrap around), the byte count computed by
    [packed_bytes_rounded] is [ceil(L/4)] rounded up to the next multiple
    of 8. *)
Theorem packed_bytes_rounded_spec (L : Z) :
  0 <= L <= 4294967292 ->
  packed_bytes_rounded L = round_up_to_8 (ceil_div L 4).
Proof.
  intros H. rewrite packed_bytes_rounded_in_range by exact H.
  unfold round_up_to_8.
  rewrite (ceil_div_add L 4) by lia.
  rewrite (ceil_div_add _ 8) by lia.
  replace (L + 4 - 1) with (L + 3) by lia.
  replace ((L + 3) / 4 + 8 - 1) with ((L + 3) / 4 + 7) by lia.
  reflexivity.
Qed.

Lemma packed_bytes_rounded_spec_witness :
  0 <= 33 <= 4294967292 /\ packed_bytes_rounded 33 = round_up_to_8 (ceil_div 33 4).
Proof. split; [lia | apply (packed_bytes_rounded_spec 33); lia]. Defined.

(** At the largest [uint32_t], [L + 3u] wraps around to 2, the byte
    count computed is 0, and [ceil(L/4)] rounded up to a multiple of 8 is
    1073741824. *)
Lemma packed_bytes_rounded_wraps :
  packed_bytes_rounded 4294967295 = 0
  /\ round_up_to_8 (ceil_div 4294967295 4) = 1073741824
  /\ packed_bytes_rounded 4294967295 <> round_up_to_8 (ceil_div 4294967295 4).
Proof. repeat split. discriminate. Qed.

(** ** The wrapper over any library *)

Section WrapperFacts.

Context {L : Type} {B : Backend L}.

Implicit Types (st : gasal_gpu_storage_t L) (lg : list event).
Implicit Types (a : GasalAligner L) (q s : list ascii).

Lemma length_exceeded_sanitize (max_q max_t : Z) q s :
  length_exceeded max_q max_t (sanitize q) (sanitize s)
  = length_exceeded max_q max_t q s.
Proof. unfold length_exceeded. now rewrite !size_sanitize. Qed.

(** Within the range of [int] the check compares the lengths. *)
Lemma length_exceeded_iff (max_q max_t : Z) q s :
  Z.of_nat (length q) < 2 ^ 31 ->
  Z.of_nat (length s) < 2 ^ 31 ->
  length_exceeded max_q max_t q s = true
  <-> Z.of_nat (length q) > max_q \/ Z.of_nat (length s) > max_t.
Proof.
  intros Hq Hs. unfold length_exceeded.
  rewrite !size_small by (change (2 ^ 64) with 18446744073709551616;
                          change (2 ^ 31) with 2147483648 in *; lia).
  rewrite !to_int_small by lia.
  rewrite orb_true_iff, !Z.gtb_ltb, !Z.ltb_lt. lia.
Qed.

(** *** Step 2 and the launch *)

Lemma fill_batch_run st lg q s :
  fill_batch q s (st, lg)
  = (Ret tt, (filled st q s, lg ++ fill_events q s)).
Proof.
  unfold filled, fill_batch, fill_events, bind, modify, host_batch_fill,
    op_fill. cbn [fst snd].
  destruct (gasal_host_batch_fill (set_current_n_alns 0 st) 0 q
              (Int.to_uint32 (size q)) QUERY) as [st1 q_off].
  cbn [fst snd].
  destruct (gasal_host_batch_fill st1 0 s (Int.to_uint32 (size s)) TARGET)
    as [st2 t_off].
  cbn [fst snd app]. rewrite <- !app_assoc. reflexivity.
Qed.

Lemma submit_run (p : Parameters) st lg :
  submit p (st, lg)
  = (Ret tt,
     (gasal_aln_async st
        (packed_bytes_rounded (Int.to_uint32 (host_query_batch_lens st 0)))
        (packed_bytes_rounded (Int.to_uint32 (host_target_batch_lens st 0)))
        1 p,
      lg ++ [submit_event p st])).
Proof. reflexivity. Qed.

Lemma submitted_eq (p : Parameters) st q s :
  submitted p st q s
  = gasal_aln_async (filled st q s)
      (packed_bytes_rounded
         (Int.to_uint32 (host_query_batch_lens (filled st q s) 0)))
      (packed_bytes_rounded
         (Int.to_uint32 (host_target_batch_lens (filled st q s) 0)))
      1 p.
Proof.
  unfold submitted, bind. rewrite fill_batch_run, submit_run. reflexivity.
Qed.

(** Step 2 spelled out: the storages that the library calls receive
    and the members written between them. *)
Lemma filled_unfold st q s :
  filled st q s
  = let st0 := set_current_n_alns 0 st in
    let r1 := gasal_host_batch_fill st0 0 q (Int.to_uint32 (size q)) QUERY in
    let r2 :=
      gasal_host_batch_fill (fst r1) 0 s (Int.to_uint32 (size s)) TARGET in
    let st1 :=
      set_current_n_alns 1
        (set_host_target_batch_lens 0 (Int.to_uint32 (size s))
           (set_host_query_batch_lens 0 (Int.to_uint32 (size q))
              (set_host_target_batch_offsets 0 (Int.to_uint32 (snd r2))
                 (set_host_query_batch_offsets 0 (Int.to_uint32 (snd r1))
                    (fst r2))))) in
    gasal_op_fill (gasal_op_fill st1 0 0 QUERY) 0 0 TARGET.
Proof.
  unfold filled, fill_batch, bind, modify, host_batch_fill, op_fill.
  cbn [fst snd].
  destruct (gasal_host_batch_fill (set_current_n_alns 0 st) 0 q
              (Int.to_uint32 (size q)) QUERY) as [st1 q_off].
  cbn [fst snd].
  destruct (gasal_host_batch_fill st1 0 s (Int.to_uint32 (size s)) TARGET)
    as [st2 t_off].
  reflexivity.
Qed.

(** Step 2 read off the storages: what each library call is handed and
    what slot 0 holds afterwards. *)
Lemma filled_pinned st q s : batch_filled st q s (filled st q s).
Proof.
  rewrite filled_unfold. cbv zeta. unfold batch_filled.
  destruct (gasal_host_batch_fill (set_current_n_alns 0 st) 0 q
              (Int.to_uint32 (size q)) QUERY) as [st1 q_off] eqn:E1.
  cbn [fst snd].
  destruct (gasal_host_batch_fill st1 0 s (Int.to_uint32 (size s)) TARGET)
    as [st2 t_off] eqn:E2.
  cbn [fst snd].
  exists (set_current_n_alns 0 st), st1, q_off, st2, t_off.
  eexists. split; [repeat split |]. split; [exact E1 |].
  split; [exact E2 |]. split; [| reflexivity].
  unfold slot_0_recorded. cbn. unfold upd. cbn.
  repeat split; try reflexivity;
    destruct (i =? 0) eqn:Ei; try reflexivity;
    apply Z.eqb_eq in Ei; contradiction.
Qed.

(** The value the slot count had before the call is never used. *)
Lemma filled_ignores_n_alns (v : Z) st q s :
  filled (set_current_n_alns v st) q s = filled st q s.
Proof. reflexivity. Qed.

(** *** The wait loop *)

Lemma pending_for_answers (k : nat) st :
  pending_for k st
  <-> (forall j, (j < k)%nat -> answer j st = -1) /\ answer k st <> -1.
Proof.
  revert st. induction k as [| k IH]; intros st.
  - cbn. unfold answer. cbn. split; [intros H; split; [lia | exact H] | tauto].
  - cbn [pending_for]. rewrite IH. unfold answer. split.
    + intros (H0 & Hj & Hk). split; [| exact Hk].
      intros [| j] Hlt; [exact H0 | apply Hj; lia].
    + intros (Hj & Hk). split; [apply (Hj O); lia |].
      split; [| exact Hk]. intros j Hlt. apply (Hj (S j)). lia.
Qed.

(** Enough fuel: the loop ends after the first answer other than [-1]. *)
Lemma wait_done_returns (k fuel : nat) st lg :
  pending_for k st -> (k < fuel)%nat ->
  wait_done fuel (st, lg)
  = (Ret tt, (after_polls (S k) st, lg ++ poll_events k (answer k st))).
Proof.
  revert fuel st lg. induction k as [| k IH]; intros fuel st lg Hp Hlt.
  - destruct fuel as [| fuel]; [lia |]. cbn in Hp.
    cbn [wait_done]. unfold bind, is_aln_async_done, answer, poll_events.
    cbn [fst snd after_polls repeat app].
    destruct (gasal_is_aln_async_done st) as [st' r]. cbn [fst snd] in *.
    destruct (r =? -1) eqn:E; [apply Z.eqb_eq in E; contradiction |].
    reflexivity.
  - destruct fuel as [| fuel]; [lia |]. destruct Hp as [H0 Hp].
    cbn [wait_done]. unfold bind, is_aln_async_done.
    cbn [fst snd].
    change (after_polls (S (S k)) st)
      with (after_polls (S k) (fst (gasal_is_aln_async_done st))).
    change (answer (S k) st)
      with (answer k (fst (gasal_is_aln_async_done st))).
    destruct (gasal_is_aln_async_done st) as [st' r]. cbn [fst snd] in *.
    subst r. cbn [Z.eqb Pos.eqb].
    rewrite (IH fuel st' _ Hp) by lia.
    unfold poll_events. cbn [repeat]. rewrite <- !app_assoc. reflexivity.
Qed.

(** While every answer is [-1] the loop goes on polling. *)
Lemma wait_done_spins (fuel : nat) st lg :
  (forall k, (k < fuel)%nat -> answer k st = -1) ->
  wait_done fuel (st, lg)
  = (Spinning,
     (after_polls fuel st, lg ++ repeat (call_is_aln_async_done (-1)) fuel)).
Proof.
  revert st lg. induction fuel as [| fuel IH]; intros st lg H.
  - cbn. now rewrite app_nil_r.
  - cbn [wait_done]. unfold bind, is_aln_async_done. cbn [fst snd].
    pose proof (H O ltac:(lia)) as H0. unfold answer in H0. cbn in H0.
    assert (Hrest : forall k, (k < fuel)%nat ->
                      answer k (fst (gasal_is_aln_async_done st)) = -1).
    { intros k Hk. apply (H (S k)). lia. }
    change (after_polls (S fuel) st)
      with (after_polls fuel (fst (gasal_is_aln_async_done st))).
    destruct (gasal_is_aln_async_done st) as [st' r]. cbn [fst snd] in *.
    subst r. cbn [Z.eqb Pos.eqb].
    rewrite (IH st' _ Hrest). cbn [repeat]. rewrite <- app_assoc.
    reflexivity.
Qed.

(** Either some answer among the first [fuel] differs from [-1], or
    none does. *)
Lemma answers_cases (fuel : nat) st :
  (exists k, (k < fuel)%nat /\ pending_for k st)
  \/ (forall k, (k < fuel)%nat -> answer k st = -1).
Proof.
  induction fuel as [| fuel IH].
  - right. intros k Hk. lia.
  - destruct IH as [(k & Hk & Hp) | Hall].
    + left. exists k. split; [lia | exact Hp].
    + destruct (Z.eq_dec (answer fuel st) (-1)) as [E | E].
      * right. intros k Hk.
        destruct (Nat.eq_dec k fuel) as [-> | Hne]; [exact E |].
        apply Hall. lia.
      * left. exists fuel. split; [lia |].
        apply pending_for_answers. split; assumption.
Qed.

(** *** [align] *)

Lemma align_rejected a q s (fuel : nat) :
  length_exceeded (max_q_ a) (max_t_ a) (sanitize q) (sanitize s) = true ->
  align a q s fuel = (Throw LengthExceeded, a, []).
Proof.
  intros H. unfold align, align_body. rewrite H. unfold throw.
  destruct a; reflexivity.
Qed.

Lemma align_accepted_returns a q s (k fuel : nat) :
  length_exceeded (max_q_ a) (max_t_ a) (sanitize q) (sanitize s) = false ->
  pending_for k (submitted (args_ a) (stor_v_ a) (sanitize q) (sanitize s)) ->
  (k < fuel)%nat ->
  let st_s := submitted (args_ a) (stor_v_ a) (sanitize q) (sanitize s) in
  let st_d := after_polls (S k) st_s in
  align a q s fuel
  = (Ret (extract st_d),
     mkAligner (subst_ a) (args_ a) st_d (max_q_ a) (max_t_ a),
     fill_events (sanitize q) (sanitize s)
     ++ [submit_event (args_ a)
           (filled (stor_v_ a) (sanitize q) (sanitize s))]
     ++ poll_events k (answer k st_s)).
Proof.
  intros Hacc Hp Hlt st_s st_d. unfold align, align_body. rewrite Hacc.
  unfold bind at 1. rewrite fill_batch_run. unfold bind at 1.
  rewrite submit_run. rewrite <- submitted_eq. fold st_s.
  unfold bind at 1. rewrite (wait_done_returns k fuel st_s _ Hp Hlt).
  fold st_d. unfold bind, get_stor, ret. cbn [fst snd app].
  rewrite <- !app_assoc. reflexivity.
Qed.

Lemma align_accepted_spins a q s (fuel : nat) :
  length_exceeded (max_q_ a) (max_t_ a) (sanitize q) (sanitize s) = false ->
  (forall k, (k < fuel)%nat ->
     answer k (submitted (args_ a) (stor_v_ a) (sanitize q) (sanitize s))
     = -1) ->
  let st_s := submitted (args_ a) (stor_v_ a) (sanitize q) (sanitize s) in
  align a q s fuel
  = (Spinning,
     mkAligner (subst_ a) (args_ a) (after_polls fuel st_s)
       (max_q_ a) (max_t_ a),
     fill_events (sanitize q) (sanitize s)
     ++ [submit_event (args_ a)
           (filled (stor_v_ a) (sanitize q) (sanitize s))]
     ++ repeat (call_is_aln_async_done (-1)) fuel).
Proof.
  intros Hacc Hall st_s. unfold align, align_body. rewrite Hacc.
  unfold bind at 1. rewrite fill_batch_run. unfold bind at 1.
  rewrite submit_run. rewrite <- submitted_eq. fold st_s.
  unfold bind at 1. rewrite (wait_done_spins fuel st_s _ Hall).
  cbn [fst snd app]. rewrite <- !app_assoc. reflexivity.
Qed.

(** What a call of [align] can do: throw before any library call, return
    after the first answer other than [-1], or still be polling. *)
Lemma align_cases a q s (fuel : nat) :
  let st_s := submitted (args_ a) (stor_v_ a) (sanitize q) (sanitize s) in
  let launch :=
    fill_events (sanitize q) (sanitize s)
    ++ [submit_event (args_ a)
          (filled (stor_v_ a) (sanitize q) (sanitize s))] in
  (length_exceeded (max_q_ a) (max_t_ a) (sanitize q) (sanitize s) = true
   /\ align a q s fuel = (Throw LengthExceeded, a, []))
  \/ (length_exceeded (max_q_ a) (max_t_ a) (sanitize q) (sanitize s) = false
      /\ exists k, (k < fuel)%nat /\ pending_for k st_s
         /\ align a q s fuel
            = (Ret (extract (after_polls (S k) st_s)),
               mkAligner (subst_ a) (args_ a) (after_polls (S k) st_s)
                 (max_q_ a) (max_t_ a),
               launch ++ poll_events k (answer k st_s)))
  \/ (length_exceeded (max_q_ a) (max_t_ a) (sanitize q) (sanitize s) = false
      /\ (forall k, (k < fuel)%nat -> answer k st_s = -1)
      /\ align a q s fuel
         = (Spinning,
            mkAligner (subst_ a) (args_ a) (after_polls fuel st_s)
              (max_q_ a) (max_t_ a),
            launch ++ repeat (call_is_aln_async_done (-1)) fuel)).
Proof.
  intros st_s launch.
  destruct (length_exceeded (max_q_ a) (max_t_ a) (sanitize q) (sanitize s))
    eqn:Hacc.
  - left. split; [reflexivity | now apply align_rejected].
  - right. destruct (answers_cases fuel st_s) as [(k & Hlt & Hp) | Hall].
    + left. split; [reflexivity |]. exists k. repeat split; try assumption.
      unfold launch. rewrite <- app_assoc.
      now apply align_accepted_returns.
    + right. repeat split; try assumption.
      unfold launch. rewrite <- app_assoc.
      now apply align_accepted_spins.
Qed.

(** A returned [PAlign] is read from the storage the call leaves. *)
Lemma align_ret_inv a q s (fuel : nat) (r : PAlign) a' lg :
  align a q s fuel = (Ret r, a', lg) -> r = extract (stor_v_ a').
Proof.
  intros H.
  destruct (align_cases a q s fuel)
    as [[_ E] | [(_ & k & _ & _ & E) | (_ & _ & E)]];
    rewrite E in H; inversion H; subst; reflexivity.
Qed.

Lemma align_keeps_members a q s (fuel : nat) :
  let a' := snd (fst (align a q s fuel)) in
  subst_ a' = subst_ a /\ args_ a' = args_ a
  /\ max_q_ a' = max_q_ a /\ max_t_ a' = max_t_ a.
Proof.
  unfold align.
  destruct (align_body a q s fuel (stor_v_ a, [])) as [o w].
  cbn. repeat split.
Qed.

Lemma in_poll_events_async (k : nat) (r qb tb n : Z) (p : Parameters) :
  ~ In (call_aln_async qb tb n p) (poll_events k r).
Proof.
  unfold poll_events. rewrite in_app_iff. intros [H | [H | []]].
  - apply repeat_spec in H. discriminate.
  - discriminate.
Qed.

(** Every launch recorded for a call carries the object's [args_]. *)
Lemma align_log_async a q s (fuel : nat) (qb tb n : Z) (p : Parameters) :
  In (call_aln_async qb tb n p) (snd (align a q s fuel)) -> p = args_ a.
Proof.
  destruct (align_cases a q s fuel)
    as [[_ E] | [(_ & k & _ & _ & E) | (_ & _ & E)]];
    rewrite E; cbn [snd]; intros H.
  - destruct H.
  - rewrite !in_app_iff in H. destruct H as [[H | H] | H].
    + cbn in H. repeat (destruct H as [H | H]; [discriminate |]).
      destruct H.
    + destruct H as [H | []]. unfold submit_event in H. congruence.
    + now apply in_poll_events_async in H.
  - rewrite !in_app_iff in H. destruct H as [[H | H] | H].
    + cbn in H. repeat (destruct H as [H | H]; [discriminate |]).
      destruct H.
    + destruct H as [H | []]. unfold submit_event in H. congruence.
    + apply repeat_spec in H. discriminate.
Qed.

Lemma align_many_args a (calls : list (list ascii * list ascii * nat)) :
  args_ (snd (align_many a calls)) = args_ a
  /\ Forall (fun ol => forall qb tb n p,
               In (call_aln_async qb tb n p) (snd ol) -> p = args_ a)
       (fst (align_many a calls)).
Proof.
  revert a. induction calls as [| [[q s] fuel] rest IH]; intros a.
  - cbn. split; [reflexivity | constructor].
  - cbn [align_many].
    pose proof (align_keeps_members a q s fuel) as (_ & Hargs & _ & _).
    pose proof (align_log_async a q s fuel) as Hlog.
    destruct (align a q s fuel) as [[o a'] lg]. cbn [fst snd] in *.
    specialize (IH a'). destruct (align_many a' rest) as [os a''].
    cbn [fst snd] in *. destruct IH as [IH1 IH2]. rewrite Hargs in *.
    split; [exact IH1 |]. constructor; [exact Hlog | exact IH2].
Qed.

Lemma length_overlong_query : Z.of_nat (length overlong_query) = 2147483648.
Proof.
  unfold overlong_query. rewrite repeat_length. apply Z2Nat.id. lia.
Qed.

(** A length of 2147483648 is read by [(int)q.size()] as -2147483648. *)
Lemma to_int_size_overlong q :
  Z.of_nat (length q) = 2147483648 ->
  Int.to_uint32 (size q) = 2147483648 /\ Int.to_int (size q) = -2147483648.
Proof.
  intros H. unfold size. rewrite H. split; reflexivity.
Qed.

(** C1, the failing input. The constructor's defaults are
    [max_q = 2048] and [max_t = 8192]. For a query of 2147483648 bases
    and a target of one base, [(int)q.size()] is -2147483648, the length
    check does not fire although the query is longer than 2048, [align]
    does not throw, and its first library call hands the whole query to
    [gasal_host_batch_fill] with size 2147483648. *)
Theorem align_accepts_overlong_query (l : L)
    (match_score mismatch_score gap_open_score gap_extend_score : Z)
    (fuel : nat) :
  let a := GasalAligner_default l match_score mismatch_score gap_open_score
             gap_extend_score in
  max_q_ a = 2048 /\ max_t_ a = 8192
  /\ Z.of_nat (length overlong_query) > max_q_ a
  /\ Int.to_int (size (sanitize overlong_query)) = -2147483648
  /\ fst (fst (align a overlong_query (str "A") fuel)) <> Throw LengthExceeded
  /\ exists rest,
       snd (align a overlong_query (str "A") fuel)
       = call_host_batch_fill 0 (sanitize overlong_query) 2147483648 QUERY
         :: rest.
Proof.
  intros a.
  assert (Hlen : Z.of_nat (length (sanitize overlong_query)) = 2147483648).
  { rewrite length_sanitize. apply length_overlong_query. }
  destruct (to_int_size_overlong _ Hlen) as [Hu Hi].
  assert (Hacc : length_exceeded (max_q_ a) (max_t_ a)
                   (sanitize overlong_query) (sanitize (str "A")) = false).
  { unfold length_exceeded. rewrite Hi. reflexivity. }
  split; [reflexivity |]. split; [reflexivity |].
  split; [rewrite length_overlong_query; reflexivity |].
  split; [exact Hi |].
  destruct (align_cases a overlong_query (str "A") fuel)
    as [[E _] | [(_ & k & _ & _ & E) | (_ & _ & E)]].
  - rewrite Hacc in E. discriminate.
  - rewrite E. cbn [fst snd]. split; [discriminate |].
    unfold fill_events. rewrite Hu. cbn [app]. eexists. reflexivity.
  - rewrite E. cbn [fst snd]. split; [discriminate |].
    unfold fill_events. rewrite Hu. cbn [app]. eexists. reflexivity.
Qed.

(** C4, as amended. Whenever [align] returns, the member [cigar] of the
    result is the raw CIGAR bytes of the library, copied in order from
    [R.cigar + host_query_batch_offsets[0]], [n_cigar_ops[0]] of them, and
    the Python attribute [cigar] is that byte sequence as a list of
    ints. *)
Theorem align_returns_raw_cigar a q s (fuel : nat) (r : PAlign) a' lg :
  align a q s fuel = (Ret r, a', lg) ->
  p_cigar r
  = cigar_bytes (host_res (stor_v_ a'))
      (Int.to_uint32 (host_query_batch_offsets (stor_v_ a') 0))
      (Int.to_uint32 (n_cigar_ops (host_res (stor_v_ a')) 0))
  /\ PAlign_getattr r "cigar"
     = Some (PyList (map PyLong
                       (cigar_bytes (host_res (stor_v_ a'))
                          (Int.to_uint32
                             (host_query_batch_offsets (stor_v_ a') 0))
                          (Int.to_uint32
                             (n_cigar_ops (host_res (stor_v_ a')) 0)))))
  /\ (forall o, PAlign_getattr r "cigar" = Some o -> is_byte_list o = true).
Proof.
  intros H. apply align_ret_inv in H. subst r.
  split; [reflexivity |]. split; [reflexivity |].
  intros o Ho. cbn in Ho. inversion Ho; subst o. cbn.
  rewrite forallb_forall. intros x Hx. apply in_map_iff in Hx.
  destruct Hx as (z & <- & _). reflexivity.
Qed.

(** C5. For every accepted pair, when the library answers "not done" to
    [k] completion queries and the fuel allows [k + 1] of them, [align]
    returns, having done exactly this, in this order: both inputs are
    sanitized; the slot count is set to 0; the sanitized query and then
    the sanitized target are handed to [gasal_host_batch_fill] at offset
    0; slot 0 of the offset tables records the two values returned and
    slot 0 of the length tables the two sizes, the slot count is set to 1
    and nothing else in the storage is touched; the two [gasal_op_fill]
    calls follow; one [gasal_aln_async] is made on that storage with the
    two packed byte counts and one alignment; then [k + 1] completion
    queries of which only the last is answered other than [-1]. The
    value returned is slot 0 of the result arrays of the storage left by
    that last query. *)
Theorem align_steps_in_order a q s (k fuel : nat) :
  length_exceeded (max_q_ a) (max_t_ a) q s = false ->
  pending_for k (submitted (args_ a) (stor_v_ a) (sanitize q) (sanitize s)) ->
  (k < fuel)%nat ->
  let st_f := filled (stor_v_ a) (sanitize q) (sanitize s) in
  let st_s := submitted (args_ a) (stor_v_ a) (sanitize q) (sanitize s) in
  let st_d := after_polls (S k) st_s in
  let R := host_res st_d in
  batch_filled (stor_v_ a) (sanitize q) (sanitize s) st_f
  /\ st_s
     = gasal_aln_async st_f
         (packed_bytes_rounded
            (Int.to_uint32 (host_query_batch_lens st_f 0)))
         (packed_bytes_rounded
            (Int.to_uint32 (host_target_batch_lens st_f 0)))
         1 (args_ a)
  /\ exists r_last, r_last <> -1
  /\ align a q s fuel
     = (Ret (mkPAlign (Int.to_int (aln_score R 0))
               (Int.to_int (query_batch_start R 0))
               (Int.to_int (query_batch_end R 0))
               (Int.to_int (target_batch_start R 0))
               (Int.to_int (target_batch_end R 0))
               (cigar_bytes R
                  (Int.to_uint32 (host_query_batch_offsets st_d 0))
                  (Int.to_uint32 (n_cigar_ops R 0)))),
        mkAligner (subst_ a) (args_ a) st_d (max_q_ a) (max_t_ a),
        [call_host_batch_fill 0 (sanitize q)
           (Int.to_uint32 (size (sanitize q))) QUERY;
         call_host_batch_fill 0 (sanitize s)
           (Int.to_uint32 (size (sanitize s))) TARGET;
         call_op_fill 0 0 QUERY;
         call_op_fill 0 0 TARGET;
         call_aln_async
           (packed_bytes_rounded
              (Int.to_uint32 (host_query_batch_lens st_f 0)))
           (packed_bytes_rounded
              (Int.to_uint32 (host_target_batch_lens st_f 0)))
           1 (args_ a)]
        ++ repeat (call_is_aln_async_done (-1)) k
        ++ [call_is_aln_async_done r_last]).
Proof.
  intros Hacc Hp Hlt st_f st_s st_d R.
  rewrite <- length_exceeded_sanitize in Hacc.
  split; [apply filled_pinned |].
  split; [apply submitted_eq |].
  exists (answer k st_s). split.
  - apply pending_for_answers in Hp. apply Hp.
  - rewrite (align_accepted_returns a q s k fuel Hacc Hp Hlt).
    reflexivity.
Qed.

(** C6. The constructor sets the algorithm to semi-global with traceback
    and both free ends, head and tail, to the query; whatever sequence of
    [align] calls follows, with whatever outcomes, the object's settings
    stay these, and every launch made by those calls is given them. *)
Theorem free_end_configuration_fixed (l : L)
    (match_score mismatch_score gap_open_score gap_extend_score : Z)
    (max_q max_t : Z) (calls : list (list ascii * list ascii * nat)) :
  let a := GasalAligner_new l match_score mismatch_score gap_open_score
             gap_extend_score max_q max_t in
  let cfg := mkParameters SEMI_GLOBAL WITH_TB QUERY QUERY in
  args_ a = cfg
  /\ semiglobal_skipping_head (args_ (snd (align_many a calls))) = QUERY
  /\ semiglobal_skipping_tail (args_ (snd (align_many a calls))) = QUERY
  /\ args_ (snd (align_many a calls)) = cfg
  /\ Forall (fun ol => forall qb tb n p,
               In (call_aln_async qb tb n p) (snd ol) -> p = cfg)
       (fst (align_many a calls)).
Proof.
  intros a cfg.
  destruct (align_many_args a calls) as [H1 H2].
  change (args_ a) with cfg in *.
  rewrite H1. repeat split. exact H2.
Qed.

(** C8, as amended. For every accepted pair the wait is a busy-poll loop
    with an empty body: after the launch [align] makes completion queries
    back to back, with no other call between them, for as long as the
    answer is [-1]. Either some query among the first [fuel] is answered
    other than [-1], and [align] returns what it reads from the storage
    left by the first such query; or all are answered [-1], and [align]
    is still polling after [fuel] queries. *)
Theorem align_wait_busy_polls a q s (fuel : nat) :
  length_exceeded (max_q_ a) (max_t_ a) q s = false ->
  let st_s := submitted (args_ a) (stor_v_ a) (sanitize q) (sanitize s) in
  let launch :=
    fill_events (sanitize q) (sanitize s)
    ++ [submit_event (args_ a)
          (filled (stor_v_ a) (sanitize q) (sanitize s))] in
  (exists k, (k < fuel)%nat
     /\ (forall j, (j < k)%nat -> answer j st_s = -1)
     /\ answer k st_s <> -1
     /\ align a q s fuel
        = (Ret (extract (after_polls (S k) st_s)),
           mkAligner (subst_ a) (args_ a) (after_polls (S k) st_s)
             (max_q_ a) (max_t_ a),
           launch ++ repeat (call_is_aln_async_done (-1)) k
           ++ [call_is_aln_async_done (answer k st_s)]))
  \/ ((forall k, (k < fuel)%nat -> answer k st_s = -1)
      /\ align a q s fuel
         = (Spinning,
            mkAligner (subst_ a) (args_ a) (after_polls fuel st_s)
              (max_q_ a) (max_t_ a),
            launch ++ repeat (call_is_aln_async_done (-1)) fuel)).
Proof.
  intros Hacc st_s launch.
  rewrite <- length_exceeded_sanitize in Hacc.
  destruct (align_cases a q s fuel)
    as [[E _] | [(_ & k & Hlt & Hp & E) | (_ & Hall & E)]].
  - rewrite Hacc in E. discriminate.
  - left. exists k. apply pending_for_answers in Hp. destruct Hp as [Hj Hk].
    repeat split; try assumption.
  - right. split; assumption.
Qed.

End WrapperFacts.

(** ** The wrapper over the example library that returns the placement offset *)

Section RefFacts.

Variable engine :
  gasal_subst_scores -> Parameters -> list ascii -> list ascii ->
  Ref.slot_result.

Let B : Backend Ref.lib_state := Ref.backend Ref.placed engine.
#[local] Existing Instance B.

Implicit Types (st : gasal_gpu_storage_t Ref.lib_state).
Implicit Types (a : GasalAligner Ref.lib_state) (q s : list ascii).

(** *** Buffers *)

Lemma map_nth_seq {A : Type} (d : A) (l : list A) (n : nat) :
  (n <= length l)%nat ->
  map (fun i => nth i l d) (seq 0 n) = firstn n l.
Proof.
  revert n. induction l as [| x l IH]; intros n Hn.
  - cbn in Hn. assert (n = O) by lia. subst n. reflexivity.
  - destruct n as [| n]; [reflexivity |].
    cbn [seq map firstn nth]. f_equal.
    rewrite <- seq_shift, map_map. cbn in Hn. apply IH. lia.
Qed.

Lemma read_write_at {A : Type} (d : A) (buf : Z -> A) (off n : Z)
    (data : list A) :
  (Z.to_nat n <= length data)%nat ->
  read_at (write_at d buf off data) off n = firstn (Z.to_nat n) data.
Proof.
  intros Hn. unfold read_at.
  rewrite <- (map_nth_seq d data (Z.to_nat n) Hn).
  apply map_ext_in. intros i Hi. apply in_seq in Hi.
  unfold write_at.
  replace (off + Z.of_nat i - off) with (Z.of_nat i) by lia.
  rewrite Nat2Z.id.
  destruct ((off <=? off + Z.of_nat i)
            && (off + Z.of_nat i <? off + Z.of_nat (length data))) eqn:E;
    [reflexivity |].
  apply andb_false_iff in E. destruct E as [E | E].
  - apply Z.leb_gt in E. lia.
  - apply Z.ltb_ge in E. lia.
Qed.

Lemma to_uint32_le (z : Z) : 0 <= z -> Int.to_uint32 z <= z.
Proof. intros H. unfold Int.to_uint32. apply Z.mod_le; lia. Qed.

Lemma to_uint32_size_le q :
  (Z.to_nat (Int.to_uint32 (size q)) <= length q)%nat.
Proof.
  assert (H1 : 0 <= size q <= Z.of_nat (length q)).
  { unfold size, Int.to_size_t. split.
    - apply Z.mod_pos_bound. lia.
    - apply Z.mod_le; lia. }
  pose proof (to_uint32_le (size q) (proj1 H1)).
  pose proof (to_uint32_range (size q)). lia.
Qed.

Lemma to_uint32_length_le {A : Type} (l : list A) :
  (Z.to_nat (Int.to_uint32 (Z.of_nat (length l))) <= length l)%nat.
Proof.
  pose proof (to_uint32_le (Z.of_nat (length l)) ltac:(lia)).
  pose proof (to_uint32_range (Z.of_nat (length l))). lia.
Qed.

(** Reading back the bytes of a sequence just written, padding or not. *)
Lemma read_padded (buf : Z -> ascii) q :
  read_at
    (write_at "N"%char buf 0 (Ref.padded q (Int.to_uint32 (size q))))
    0 (Int.to_uint32 (size q))
  = firstn (Z.to_nat (Int.to_uint32 (size q))) q.
Proof.
  pose proof (to_uint32_size_le q) as Hle.
  rewrite read_write_at.
  - unfold Ref.padded. rewrite firstn_app, firstn_firstn, Nat.min_id.
    rewrite length_firstn, Nat.min_l by exact Hle.
    rewrite Nat.sub_diag. cbn [firstn]. apply app_nil_r.
  - unfold Ref.padded. rewrite length_app, length_firstn. lia.
Qed.

(** *** Filling, launching, polling *)

Lemma ref_filled st q s :
  let f := filled st q s in
  current_n_alns f = 1
  /\ host_query_batch_offsets f 0 = 0
  /\ host_target_batch_offsets f 0 = 0
  /\ host_query_batch_lens f 0 = Int.to_uint32 (size q)
  /\ host_target_batch_lens f 0 = Int.to_uint32 (size s)
  /\ host_res f = host_res st
  /\ Ref.scores (lib f) = Ref.scores (lib st)
  /\ Ref.latency (lib f) = Ref.latency (lib st)
  /\ Ref.handle (lib f) = Ref.handle (lib st)
  /\ Ref.query_batch (lib f)
     = write_at "N"%char (Ref.query_batch (lib st)) 0
         (Ref.padded q (Int.to_uint32 (size q)))
  /\ Ref.target_batch (lib f)
     = write_at "N"%char (Ref.target_batch (lib st)) 0
         (Ref.padded s (Int.to_uint32 (size s))).
Proof. cbv zeta. repeat split. Qed.

Lemma ref_pending (k : nat) st (R : gasal_res_t) :
  Ref.handle (lib st) = Ref.Pending k R ->
  pending_for k st /\ answer k st = 0
  /\ after_polls (S k) st = Ref.at_done st R.
Proof.
  revert st. induction k as [| k IH]; intros st H.
  - unfold answer. cbn. unfold Ref.executor_poll. rewrite H. cbn.
    repeat split. discriminate.
  - cbn [pending_for].
    change (answer (S k) st)
      with (answer k (fst (gasal_is_aln_async_done st))).
    change (after_polls (S (S k)) st)
      with (after_polls (S k) (fst (gasal_is_aln_async_done st))).
    cbn [gasal_is_aln_async_done B Ref.backend].
    unfold Ref.executor_poll at 1 2 3 4. rewrite H. cbn [fst snd].
    match goal with
    | |- (_ /\ pending_for k ?st1) /\ _ =>
        destruct (IH st1 eq_refl) as (Hp & Ha & Hd)
    end.
    repeat split; try assumption.
Qed.

Lemma run_batch_one (p : Parameters) st :
  Ref.run_batch engine p st 1 = Ref.run_slot engine p st (host_res st) 0.
Proof. reflexivity. Qed.

Lemma ref_aln_async_idle (p : Parameters) st (qb tb n : Z) :
  Ref.handle (lib st) = Ref.Idle ->
  Ref.executor_submit engine st qb tb n p
  = mkStorage (current_n_alns st) (host_query_batch_offsets st)
      (host_target_batch_offsets st) (host_query_batch_lens st)
      (host_target_batch_lens st) (host_res st)
      (Ref.set_handle
         (Ref.Pending (Ref.latency (lib st)) (Ref.run_batch engine p st n))
         (lib st)).
Proof. intros H. unfold Ref.executor_submit. now rewrite H. Qed.

Lemma ref_submitted (p : Parameters) st q s :
  Ref.handle (lib st) = Ref.Idle ->
  Ref.handle (lib (submitted p st q s))
  = Ref.Pending (Ref.latency (lib st))
      (Ref.run_slot engine p (filled st q s) (host_res st) 0)
  /\ Ref.at_done (submitted p st q s)
       (Ref.run_slot engine p (filled st q s) (host_res st) 0)
     = Ref.at_done (filled st q s)
         (Ref.run_slot engine p (filled st q s) (host_res st) 0).
Proof.
  intros H. rewrite submitted_eq.
  pose proof (ref_filled st q s) as F. cbv zeta in F.
  set (f := filled st q s) in *. clearbody f.
  destruct F as (_ & _ & _ & _ & _ & Hres & _ & Hlat & Hh & _ & _).
  change (@gasal_aln_async _ B) with (Ref.executor_submit engine).
  rewrite ref_aln_async_idle by congruence.
  rewrite run_batch_one, Hres, Hlat. split; reflexivity.
Qed.

(** What is read from slot 0 after the Done transition of a batch that
    was filled from [q] and [s]. *)
Lemma ref_extract (p : Parameters) st q s :
  extract
    (Ref.at_done (filled st q s)
       (Ref.run_slot engine p (filled st q s) (host_res st) 0))
  = let r := engine (Ref.scores (lib st)) p
               (firstn (Z.to_nat (Int.to_uint32 (size q))) q)
               (firstn (Z.to_nat (Int.to_uint32 (size s))) s) in
    mkPAlign (Int.to_int (Ref.r_score r)) (Int.to_int (Ref.r_q_beg r))
      (Int.to_int (Ref.r_q_end r)) (Int.to_int (Ref.r_t_beg r))
      (Int.to_int (Ref.r_t_end r))
      (map Int.to_uint8
         (firstn
            (Z.to_nat (Int.to_uint32 (Z.of_nat (length (Ref.r_cigar r)))))
            (Ref.r_cigar r))).
Proof.
  pose proof (ref_filled st q s) as F. cbv zeta in F.
  set (f := filled st q s) in *. clearbody f.
  destruct F as (_ & Hqo & Hto & Hql & Htl & _ & Hsc & _ & _ & Hqb & Htb).
  unfold extract, Ref.at_done, Ref.run_slot.
  cbn [host_res host_query_batch_offsets aln_score query_batch_start
       query_batch_end target_batch_start target_batch_end n_cigar_ops].
  rewrite Hqo, Hto, Hql, Htl, Hsc, Hqb, Htb, !read_padded.
  unfold upd. cbn [Z.eqb]. change (Int.to_uint32 0) with 0.
  cbv zeta. f_equal. unfold cigar_bytes. cbn [cigar]. f_equal.
  apply read_write_at, to_uint32_length_le.
Qed.

(** An accepted call on an idle storage returns once the fuel exceeds
    the latency, and what it returns depends on the scores, the settings
    and the two inputs only. *)
Lemma ref_align_accepted a q s (fuel : nat) :
  Ref.idle a ->
  length_exceeded (max_q_ a) (max_t_ a) (sanitize q) (sanitize s) = false ->
  (Ref.latency (lib (stor_v_ a)) < fuel)%nat ->
  align a q s fuel
  = (Ret (Ref.align_result engine (Ref.scores (lib (stor_v_ a)))
            (args_ a) q s),
     mkAligner (subst_ a) (args_ a)
       (Ref.at_done (filled (stor_v_ a) (sanitize q) (sanitize s))
          (Ref.run_slot engine (args_ a)
             (filled (stor_v_ a) (sanitize q) (sanitize s))
             (host_res (stor_v_ a)) 0))
       (max_q_ a) (max_t_ a),
     fill_events (sanitize q) (sanitize s)
     ++ [submit_event (args_ a)
           (filled (stor_v_ a) (sanitize q) (sanitize s))]
     ++ poll_events (Ref.latency (lib (stor_v_ a))) 0).
Proof.
  intros Hidle Hacc Hfuel.
  destruct (ref_submitted (args_ a) (stor_v_ a) (sanitize q) (sanitize s)
              Hidle) as [Hh Hd].
  destruct (ref_pending _ _ _ Hh) as (Hp & Ha & Hdone).
  rewrite (align_accepted_returns a q s _ fuel Hacc Hp Hfuel).
  rewrite Ha, Hdone, Hd, ref_extract. reflexivity.
Qed.

Lemma ref_align_outcome a q s (fuel : nat) :
  Ref.idle a ->
  (Ref.latency (lib (stor_v_ a)) < fuel)%nat ->
  fst (fst (align a q s fuel))
  = if length_exceeded (max_q_ a) (max_t_ a) q s
    then Throw LengthExceeded
    else Ret (Ref.align_result engine (Ref.scores (lib (stor_v_ a)))
                (args_ a) q s).
Proof.
  intros Hidle Hfuel. rewrite <- length_exceeded_sanitize.
  destruct (length_exceeded (max_q_ a) (max_t_ a) (sanitize q) (sanitize s))
    eqn:Hacc.
  - now rewrite align_rejected.
  - now rewrite ref_align_accepted.
Qed.

End RefFacts.

(** ** The length check within the range of [int] *)

(** X1. For inputs shorter than 2147483648 bytes, [align] throws exactly
    when one of the lengths exceeds its maximum, and a call that throws
    makes no library call and leaves the object as it was. *)
Lemma align_throws_iff_in_range {L : Type} {B : Backend L}
    (a : GasalAligner L) (q s : list ascii) (fuel : nat) :
  Z.of_nat (length q) < 2 ^ 31 ->
  Z.of_nat (length s) < 2 ^ 31 ->
  (fst (fst (align a q s fuel)) = Throw LengthExceeded
   <-> Z.of_nat (length q) > max_q_ a \/ Z.of_nat (length s) > max_t_ a)
  /\ (fst (fst (align a q s fuel)) = Throw LengthExceeded ->
      align a q s fuel = (Throw LengthExceeded, a, [])).
Proof.
  intros Hq Hs.
  rewrite <- (length_exceeded_iff (max_q_ a) (max_t_ a) q s Hq Hs).
  rewrite <- length_exceeded_sanitize.
  destruct (align_cases a q s fuel)
    as [[G E] | [(G & k & _ & _ & E) | (G & _ & E)]];
    rewrite E, G; cbn [fst]; (split; [split |]);
    intros H; try reflexivity; discriminate.
Qed.

(** ** Concrete runs *)

Example example_run_value :
  fst (fst example_run) = Ret (mkPAlign 5 0 4 0 4 [4; 4; 4; 5])
  /\ snd example_run
     = [call_host_batch_fill 0 (str "ACGTN") 5 QUERY;
        call_host_batch_fill 0 (str "ACGA") 4 TARGET;
        call_op_fill 0 0 QUERY;
        call_op_fill 0 0 TARGET;
        call_aln_async 8 8 1 (mkParameters SEMI_GLOBAL WITH_TB QUERY QUERY);
        call_is_aln_async_done (-1);
        call_is_aln_async_done (-1);
        call_is_aln_async_done (-1);
        call_is_aln_async_done 0].
Proof. split; reflexivity. Qed.

Example example_rejected :
  @align _ example_backend example_aligner (repeat "A"%char 2049) (str "A") 10
  = (Throw LengthExceeded, example_aligner, []).
Proof. apply align_rejected. vm_compute. reflexivity. Qed.

Lemma stuck_always_spinning (fuel : nat) :
  fst (fst (@align _ stuck_backend stuck_aligner (str "ACGT") (str "ACGT")
              fuel))
  = Spinning.
Proof.
  rewrite (@align_accepted_spins _ stuck_backend); [reflexivity | |].
  - vm_compute. reflexivity.
  - intros k _. reflexivity.
Qed.

(** ** Witnesses and counterexamples *)

(** The Python value of an edit script is recognised as one. *)
Lemma py_of_edit_script_is_edit_script (e : edit_script) :
  is_edit_script (py_of_edit_script e) = true.
Proof.
  unfold py_of_edit_script. cbn. induction e as [| r e IH]; [reflexivity |].
  cbn. exact IH.
Qed.

Lemma align_returns_raw_cigar_witness :
  example_run
  = (Ret (mkPAlign 5 0 4 0 4 [4; 4; 4; 5]), snd (fst example_run),
     snd example_run)
  /\ p_cigar (mkPAlign 5 0 4 0 4 [4; 4; 4; 5])
     = cigar_bytes (host_res (stor_v_ (snd (fst example_run))))
         (Int.to_uint32
            (host_query_batch_offsets (stor_v_ (snd (fst example_run))) 0))
         (Int.to_uint32
            (n_cigar_ops (host_res (stor_v_ (snd (fst example_run)))) 0))
  /\ PAlign_getattr (mkPAlign 5 0 4 0 4 [4; 4; 4; 5]) "cigar"
     = Some (PyList [PyLong 4; PyLong 4; PyLong 4; PyLong 5]).
Proof.
  assert (E : @align _ example_backend example_aligner (str "acgtx")
                (str "ACGA") 10
              = (Ret (mkPAlign 5 0 4 0 4 [4; 4; 4; 5]),
                 snd (fst example_run), snd example_run))
    by (vm_compute; reflexivity).
  split; [exact E |].
  destruct (@align_returns_raw_cigar _ example_backend example_aligner
              (str "acgtx") (str "ACGA") 10
              (mkPAlign 5 0 4 0 4 [4; 4; 4; 5])
              (snd (fst example_run)) (snd example_run) E) as (H1 & H2 & _).
  split; [exact H1 |]. reflexivity.
Defined.

(** C4, as stated, fails: for [align("acgtx", "ACGA")] the attribute
    [cigar] of the result is the list of ints 4, 4, 4, 5, which are the
    bytes found in the library's CIGAR buffer, and not a sequence of
    (operation, run length) pairs. *)
Lemma align_exposes_raw_cigar_bytes :
  exists r,
    fst (fst example_run) = Ret r
    /\ PAlign_getattr r "cigar"
       = Some (PyList [PyLong 4; PyLong 4; PyLong 4; PyLong 5])
    /\ map (cigar (host_res (stor_v_ (snd (fst example_run))))) [0; 1; 2; 3]
       = [4; 4; 4; 5]
    /\ is_edit_script (PyList [PyLong 4; PyLong 4; PyLong 4; PyLong 5])
       = false
    /\ forall e : edit_script,
         PAlign_getattr r "cigar" <> Some (py_of_edit_script e).
Proof.
  exists (mkPAlign 5 0 4 0 4 [4; 4; 4; 5]).
  split; [reflexivity |]. split; [reflexivity |].
  split; [reflexivity |]. split; [reflexivity |].
  intros e H. cbn in H. injection H as H.
  destruct e as [| [o n] e]; discriminate.
Qed.

Lemma align_steps_in_order_witness :
  length_exceeded (max_q_ example_aligner) (max_t_ example_aligner)
    (str "acgtx") (str "ACGA") = false
  /\ @pending_for _ example_backend 3
       (@submitted _ example_backend (args_ example_aligner)
          (stor_v_ example_aligner) (sanitize (str "acgtx"))
          (sanitize (str "ACGA")))
  /\ (3 < 10)%nat
  /\ exists r_last, r_last <> -1
     /\ fst (fst example_run) = Ret (mkPAlign 5 0 4 0 4 [4; 4; 4; 5])
     /\ snd example_run
        = [call_host_batch_fill 0 (str "ACGTN") 5 QUERY;
           call_host_batch_fill 0 (str "ACGA") 4 TARGET;
           call_op_fill 0 0 QUERY;
           call_op_fill 0 0 TARGET;
           call_aln_async 8 8 1
             (mkParameters SEMI_GLOBAL WITH_TB QUERY QUERY)]
          ++ repeat (call_is_aln_async_done (-1)) 3
          ++ [call_is_aln_async_done r_last].
Proof.
  assert (H1 : length_exceeded (max_q_ example_aligner)
                 (max_t_ example_aligner) (str "acgtx") (str "ACGA") = false)
    by (vm_compute; reflexivity).
  assert (H2 : @pending_for _ example_backend 3
                 (@submitted _ example_backend (args_ example_aligner)
                    (stor_v_ example_aligner) (sanitize (str "acgtx"))
                    (sanitize (str "ACGA"))))
    by (vm_compute; repeat split; discriminate).
  assert (H3 : (3 < 10)%nat) by lia.
  destruct (@align_steps_in_order _ example_backend example_aligner
              (str "acgtx") (str "ACGA") 3 10 H1 H2 H3)
    as (_ & _ & r & Hr & E).
  repeat (split; [assumption |]).
  exists r. split; [exact Hr |].
  unfold example_run. rewrite E. cbn [fst snd].
  split; vm_compute; reflexivity.
Defined.

Lemma align_wait_busy_polls_witness :
  length_exceeded (max_q_ example_aligner) (max_t_ example_aligner)
    (str "acgtx") (str "ACGA") = false
  /\ exists k, (k < 10)%nat
       /\ snd example_run
          = [call_host_batch_fill 0 (str "ACGTN") 5 QUERY;
             call_host_batch_fill 0 (str "ACGA") 4 TARGET;
             call_op_fill 0 0 QUERY;
             call_op_fill 0 0 TARGET;
             call_aln_async 8 8 1
               (mkParameters SEMI_GLOBAL WITH_TB QUERY QUERY)]
            ++ repeat (call_is_aln_async_done (-1)) k
            ++ [call_is_aln_async_done 0].
Proof.
  assert (H1 : length_exceeded (max_q_ example_aligner)
                 (max_t_ example_aligner) (str "acgtx") (str "ACGA") = false)
    by (vm_compute; reflexivity).
  split; [exact H1 |].
  destruct (@align_wait_busy_polls _ example_backend example_aligner
              (str "acgtx") (str "ACGA") 10 H1)
    as [(k & Hk & _ & _ & E) | (_ & E)].
  - exists 3%nat. split; [lia | reflexivity].
  - exfalso. apply (f_equal (fun x => fst (fst x))) in E.
    cbn [fst] in E. vm_compute in E. discriminate.
Defined.

(** C8, as stated, fails: in [align("acgtx", "ACGA")] on a library that
    stays Pending for three polls, the four completion queries follow one
    another with nothing in between; and on a library that never
    completes there is no number of polls after which [align] has stopped
    polling. *)
Lemma align_busy_spins :
  (exists launch,
     snd example_run
     = launch ++ [call_is_aln_async_done (-1); call_is_aln_async_done (-1);
                  call_is_aln_async_done (-1); call_is_aln_async_done 0])
  /\ ~ (exists fuel,
          fst (fst (@align _ stuck_backend stuck_aligner (str "ACGT")
                      (str "ACGT") fuel))
          <> Spinning).
Proof.
  split.
  - exists [call_host_batch_fill 0 (str "ACGTN") 5 QUERY;
            call_host_batch_fill 0 (str "ACGA") 4 TARGET;
            call_op_fill 0 0 QUERY;
            call_op_fill 0 0 TARGET;
            call_aln_async 8 8 1
              (mkParameters SEMI_GLOBAL WITH_TB QUERY QUERY)].
    reflexivity.
  - intros (fuel & H). apply H. apply stuck_always_spinning.
Qed.

(* ================================================================== *)
(** * Part III.  Further properties of the wrapper                    *)
(* ================================================================== *)

(** ** [packed_bytes_rounded] on every [uint32_t] *)

Lemma to_int_range (z : Z) : - 2 ^ 31 <= Int.to_int z < 2 ^ 31.
Proof.
  unfold Int.to_int. cbv zeta.
  pose proof (Z.mod_pos_bound z (2 ^ 32) ltac:(lia)) as H.
  change (2 ^ 32) with 4294967296 in *. change (2 ^ 31) with 2147483648.
  destruct (z mod 4294967296 <? 2147483648) eqn:E;
    [apply Z.ltb_lt in E | apply Z.ltb_ge in E]; lia.
Qed.

Lemma to_uint8_range (z : Z) : 0 <= Int.to_uint8 z < 256.
Proof. unfold Int.to_uint8. apply (Z.mod_pos_bound z (2 ^ 8)). lia. Qed.

Lemma packed_bytes_rounded_eq (L : Z) :
  packed_bytes_rounded L = ((Int.to_uint32 (L + 3) / 4 + 7) / 8) * 8
  /\ 0 <= (Int.to_uint32 (L + 3) / 4 + 7) / 8 <= 134217728.
Proof.
  unfold packed_bytes_rounded. cbv zeta.
  pose proof (to_uint32_range (L + 3)) as Hu.
  change (2 ^ 32) with 4294967296 in Hu.
  set (u := Int.to_uint32 (L + 3)) in *. clearbody u.
  assert (Hb : 0 <= u / 4 <= 1073741823) by (Z.div_mod_to_equations; lia).
  rewrite (to_uint32_small (u / 4 + 7))
    by (change (2 ^ 32) with 4294967296; lia).
  assert (Hc : 0 <= (u / 4 + 7) / 8 <= 134217728)
    by (Z.div_mod_to_equations; lia).
  rewrite to_uint32_small by (change (2 ^ 32) with 4294967296; lia).
  split; [| exact Hc].
  apply to_int_small. change (2 ^ 31) with 2147483648. lia.
Qed.

(** X5. Whatever [uint32_t] it is given, [packed_bytes_rounded] returns
    a multiple of 8 between 0 and 1073741824: the conversion to [int]
    never yields a negative byte count. *)
Theorem packed_bytes_rounded_range (L : Z) :
  0 <= packed_bytes_rounded L <= 1073741824
  /\ packed_bytes_rounded L mod 8 = 0.
Proof.
  destruct (packed_bytes_rounded_eq L) as [E H]. rewrite E. split.
  - lia.
  - apply Z.mod_mul. lia.
Qed.

(** X6. For a [uint32_t] length [L], the byte count is zero exactly when
    the sequence is empty or [L] is one of the three largest values,
    where [L + 3u] wraps around. *)
Theorem packed_bytes_rounded_zero_iff (L : Z) :
  0 <= L < 4294967296 ->
  (packed_bytes_rounded L = 0 <-> L = 0 \/ 4294967293 <= L).
Proof.
  intros HL. destruct (packed_bytes_rounded_eq L) as [E _]. rewrite E.
  unfold Int.to_uint32. change (2 ^ 32) with 4294967296.
  destruct (Z_le_gt_dec L 4294967292) as [Hlo | Hhi].
  - rewrite (Z.mod_small (L + 3)) by lia.
    split; intros H.
    + left. Z.div_mod_to_equations. lia.
    + destruct H as [-> | H]; [reflexivity | lia].
  - replace ((L + 3) mod 4294967296) with (L + 3 - 4294967296).
    + split; intros _; [right; lia |]. Z.div_mod_to_equations. lia.
    + apply Z.mod_unique_pos with (q := 1); lia.
Qed.

Lemma packed_bytes_rounded_zero_iff_witness :
  0 <= 0 < 4294967296
  /\ (packed_bytes_rounded 0 = 0 <-> 0 = 0 \/ 4294967293 <= 0).
Proof.
  split; [lia | apply (packed_bytes_rounded_zero_iff 0); lia].
Defined.

(** X7. For every length [L] up to 4294967292 the packed bytes, at four
    bases per byte, hold all [L] bases, with at most 31 bases of
    padding. *)
Theorem packed_bytes_rounded_covers (L : Z) :
  0 <= L <= 4294967292 ->
  L <= 4 * packed_bytes_rounded L <= L + 31.
Proof.
  intros H. rewrite packed_bytes_rounded_in_range by exact H.
  Z.div_mod_to_equations. lia.
Qed.

Lemma packed_bytes_rounded_covers_witness :
  0 <= 33 <= 4294967292
  /\ 33 <= 4 * packed_bytes_rounded 33 <= 33 + 31.
Proof.
  split; [lia | apply (packed_bytes_rounded_covers 33); lia].
Defined.

(** X8. On lengths up to 4294967292 the byte count never decreases when
    the length grows. *)
Theorem packed_bytes_rounded_monotone (L1 L2 : Z) :
  0 <= L1 <= L2 -> L2 <= 4294967292 ->
  packed_bytes_rounded L1 <= packed_bytes_rounded L2.
Proof.
  intros H1 H2. rewrite !packed_bytes_rounded_in_range by lia.
  Z.div_mod_to_equations. lia.
Qed.

Lemma packed_bytes_rounded_monotone_witness :
  0 <= 5 <= 100 /\ 100 <= 4294967292
  /\ packed_bytes_rounded 5 <= packed_bytes_rounded 100.
Proof.
  split; [lia |]. split; [lia |].
  apply (packed_bytes_rounded_monotone 5 100); lia.
Defined.

(** X9. Thirty-two more bases cost exactly eight more bytes, as long as
    the longer length is at most 4294967292. *)
Theorem packed_bytes_rounded_step (L : Z) :
  0 <= L <= 4294967292 - 32 ->
  packed_bytes_rounded (L + 32) = packed_bytes_rounded L + 8.
Proof.
  intros H. rewrite !packed_bytes_rounded_in_range by lia.
  Z.div_mod_to_equations. lia.
Qed.

Lemma packed_bytes_rounded_step_witness :
  0 <= 5 <= 4294967292 - 32
  /\ packed_bytes_rounded (5 + 32) = packed_bytes_rounded 5 + 8.
Proof.
  split; [lia | apply (packed_bytes_rounded_step 5); lia].
Defined.

(** ** [sanitize] *)

(** X10. The strings that [sanitize] returns unchanged are exactly the
    strings over A, C, G, T, N. *)
Theorem sanitize_fixed_points (x : list ascii) :
  sanitize x = x <-> Forall (fun c => In c alphabet) x.
Proof.
  rewrite sanitize_map. split.
  - intros H. rewrite <- H. apply Forall_map, Forall_forall.
    intros c _. apply is_base_alphabet, sanitize_char_base.
  - intros H. induction H as [| c x Hc _ IH]; [reflexivity |].
    cbn [map]. rewrite IH. f_equal.
    apply sanitize_char_fix, is_base_alphabet, Hc.
Qed.

(** X11. Sanitizing a concatenation is concatenating the sanitized
    parts, and sanitizing a reversed string is reversing the sanitized
    string: each character is treated on its own. *)
Theorem sanitize_app_rev (x y : list ascii) :
  sanitize (x ++ y) = sanitize x ++ sanitize y
  /\ sanitize (rev x) = rev (sanitize x).
Proof.
  rewrite !sanitize_map. split; [apply map_app | apply map_rev].
Qed.

(** X12. A character is sanitized to a base A, C, G or T exactly when it
    is that letter in upper or lower case; every other byte, N and n
    included, becomes N. *)
Theorem sanitize_char_preimage (c : ascii) :
  (sanitize_char c = "A"%char <-> c = "A"%char \/ c = "a"%char)
  /\ (sanitize_char c = "C"%char <-> c = "C"%char \/ c = "c"%char)
  /\ (sanitize_char c = "G"%char <-> c = "G"%char \/ c = "g"%char)
  /\ (sanitize_char c = "T"%char <-> c = "T"%char \/ c = "t"%char)
  /\ (sanitize_char c = "N"%char
      <-> ~ In c ["A"; "a"; "C"; "c"; "G"; "g"; "T"; "t"]%char).
Proof.
  destruct c as [[] [] [] [] [] [] [] []]; vm_compute;
    repeat split; intros; try discriminate; try tauto;
    try (intuition discriminate).
Qed.

(** ** The Python view of a result *)

Lemma map_PyLong_inj (l1 l2 : list Z) :
  map PyLong l1 = map PyLong l2 -> l1 = l2.
Proof.
  revert l2. induction l1 as [| z l1 IH]; intros [| z2 l2] H;
    try discriminate; [reflexivity |].
  cbn in H. injection H as Hz Hl. f_equal; [exact Hz | now apply IH].
Qed.

(** X13. The six attributes determine the result: two values of
    [PAlign] whose attributes read the same are equal, so the Python
    view hides nothing and loses nothing. *)
Theorem PAlign_attributes_determine (r1 r2 : PAlign) :
  (forall name, In name PAlign_attributes ->
     PAlign_getattr r1 name = PAlign_getattr r2 name)
  <-> r1 = r2.
Proof.
  split; [| intros ->; reflexivity].
  intros H.
  pose proof (H "score"%string ltac:(cbn; tauto)) as H1.
  pose proof (H "q_beg"%string ltac:(cbn; tauto)) as H2.
  pose proof (H "q_end"%string ltac:(cbn; tauto)) as H3.
  pose proof (H "s_beg"%string ltac:(cbn; tauto)) as H4.
  pose proof (H "s_end"%string ltac:(cbn; tauto)) as H5.
  pose proof (H "cigar"%string ltac:(cbn; tauto)) as H6.
  destruct r1, r2. cbn in H1, H2, H3, H4, H5, H6.
  injection H1 as ->. injection H2 as ->. injection H3 as ->.
  injection H4 as ->. injection H5 as ->. injection H6 as H6.
  apply map_PyLong_inj in H6. now subst.
Qed.

(** ** The tail of [align] *)

Lemma length_read_at {A : Type} (buf : Z -> A) (off n : Z) :
  length (read_at buf off n) = Z.to_nat n.
Proof. unfold read_at. now rewrite length_map, length_seq. Qed.

(** X14. Whatever the result arrays hold, the five integers of the
    value read from slot 0 are within the range of [int], the CIGAR has
    [n_cigar_ops[0]] entries (taken as a [uint32_t]), and each entry is a
    byte. *)
Theorem extract_ranges {L : Type} (st : gasal_gpu_storage_t L) :
  (- 2 ^ 31 <= score (extract st) < 2 ^ 31)
  /\ (- 2 ^ 31 <= q_beg (extract st) < 2 ^ 31)
  /\ (- 2 ^ 31 <= q_end (extract st) < 2 ^ 31)
  /\ (- 2 ^ 31 <= s_beg (extract st) < 2 ^ 31)
  /\ (- 2 ^ 31 <= s_end (extract st) < 2 ^ 31)
  /\ Z.of_nat (length (p_cigar (extract st)))
     = Int.to_uint32 (n_cigar_ops (host_res st) 0)
  /\ Forall (fun b => 0 <= b < 256) (p_cigar (extract st)).
Proof.
  unfold extract. cbn [score q_beg q_end s_beg s_end p_cigar].
  repeat (split; [apply to_int_range |]). split.
  - unfold cigar_bytes. rewrite length_map, length_read_at.
    apply Z2Nat.id. apply to_uint32_range.
  - unfold cigar_bytes. apply Forall_map, Forall_forall.
    intros b _. apply to_uint8_range.
Qed.

(** X15. The value read after the wait depends on slot 0 only: two
    storages that agree on slot 0 of the query offsets and of the result
    arrays, and on the CIGAR bytes of that slot, give the same [PAlign],
    whatever else they hold. *)
Theorem extract_reads_slot_0 {L1 L2 : Type} (st1 : gasal_gpu_storage_t L1)
    (st2 : gasal_gpu_storage_t L2) :
  same_slot_0 st1 st2 -> extract st1 = extract st2.
Proof.
  intros (Ho & H1 & H2 & H3 & H4 & H5 & Hn & Hc).
  unfold extract. cbv zeta. rewrite <- Ho, <- H1, <- H2, <- H3, <- H4, <- H5.
  rewrite <- Hn. f_equal.
  unfold cigar_bytes, read_at. rewrite !map_map.
  apply map_ext_in. intros i Hi. apply in_seq in Hi.
  f_equal. apply Hc.
  pose proof (to_uint32_range (n_cigar_ops (host_res st1) 0)). lia.
Qed.

Lemma extract_reads_slot_0_witness :
  same_slot_0 (stor_v_ (snd (fst example_run))) other_storage
  /\ extract (stor_v_ (snd (fst example_run))) = extract other_storage.
Proof.
  assert (H : same_slot_0 (stor_v_ (snd (fst example_run))) other_storage).
  { repeat (split; [reflexivity |]).
    change (Int.to_uint32
              (n_cigar_ops (host_res (stor_v_ (snd (fst example_run)))) 0))
      with 4.
    change (Int.to_uint32
              (host_query_batch_offsets (stor_v_ (snd (fst example_run))) 0))
      with 0.
    intros i Hi.
    assert (Hcases : i = 0 \/ i = 1 \/ i = 2 \/ i = 3) by lia.
    destruct Hcases as [-> | [-> | [-> | ->]]]; reflexivity. }
  split; [exact H |].
  apply (extract_reads_slot_0 (stor_v_ (snd (fst example_run)))
           other_storage H).
Defined.

(** ** [align] over any library *)

Section WrapperMore.

Context {L : Type} {B : Backend L}.

Implicit Types (a : GasalAligner L) (q s : list ascii) (lg : list event).

Lemma align_throws_iff_guard a q s (fuel : nat) :
  fst (fst (align a q s fuel)) = Throw LengthExceeded
  <-> length_exceeded (max_q_ a) (max_t_ a) q s = true.
Proof.
  rewrite <- length_exceeded_sanitize.
  destruct (align_cases a q s fuel)
    as [[G E] | [(G & k & _ & _ & E) | (G & _ & E)]];
    rewrite E, G; cbn [fst]; split; intros H;
    try reflexivity; discriminate.
Qed.

(** X2. For inputs of any length, a call of [align] that throws the
    length error has made no library call and leaves the object, storage
    included, exactly as it was; and it throws it only when the check of
    line 67 holds. *)
Theorem align_throw_is_noop a q s (fuel : nat) :
  fst (fst (align a q s fuel)) = Throw LengthExceeded ->
  align a q s fuel = (Throw LengthExceeded, a, [])
  /\ length_exceeded (max_q_ a) (max_t_ a) q s = true.
Proof.
  intros H. rewrite <- length_exceeded_sanitize.
  destruct (align_cases a q s fuel)
    as [[G E] | [(G & k & _ & _ & E) | (G & _ & E)]];
    rewrite E in *; cbn [fst] in H; try discriminate.
  split; [reflexivity | exact G].
Qed.

Lemma align_many_members a (calls : list (list ascii * list ascii * nat)) :
  subst_ (snd (align_many a calls)) = subst_ a
  /\ max_q_ (snd (align_many a calls)) = max_q_ a
  /\ max_t_ (snd (align_many a calls)) = max_t_ a.
Proof.
  revert a. induction calls as [| [[q s] fuel] rest IH]; intros a.
  - cbn. repeat split.
  - cbn [align_many].
    pose proof (align_keeps_members a q s fuel) as (Hs & _ & Hq & Ht).
    destruct (align a q s fuel) as [[o a'] lg]. cbn [fst snd] in *.
    specialize (IH a'). destruct (align_many a' rest) as [os a''].
    cbn [fst snd] in *. destruct IH as (IHs & IHq & IHt).
    repeat split; congruence.
Qed.

(** X3. Over any library and after any sequence of earlier calls,
    whatever their outcomes, the object still has the scores and the two
    maxima it was built with, and whether [align] rejects a given pair is
    what it was on the new object. *)
Theorem rejection_independent_of_history a
    (calls : list (list ascii * list ascii * nat)) q s (fuel fuel' : nat) :
  subst_ (snd (align_many a calls)) = subst_ a
  /\ max_q_ (snd (align_many a calls)) = max_q_ a
  /\ max_t_ (snd (align_many a calls)) = max_t_ a
  /\ (fst (fst (align (snd (align_many a calls)) q s fuel))
      = Throw LengthExceeded
      <-> fst (fst (align a q s fuel')) = Throw LengthExceeded).
Proof.
  destruct (align_many_members a calls) as (Hs & Hq & Ht).
  repeat (split; [assumption |]).
  rewrite !align_throws_iff_guard, Hq, Ht. reflexivity.
Qed.

Lemma count_launches_app lg1 lg2 :
  count_launches (lg1 ++ lg2) = (count_launches lg1 + count_launches lg2)%nat.
Proof. unfold count_launches. now rewrite filter_app, length_app. Qed.

Lemma count_launches_repeat_poll (r : Z) (n : nat) :
  count_launches (repeat (call_is_aln_async_done r) n) = O.
Proof.
  induction n as [| n IH]; [reflexivity |]. cbn [repeat].
  unfold count_launches in *. cbn. exact IH.
Qed.

Lemma submit_event_facts (p : Parameters) (st : gasal_gpu_storage_t L)
    (qb tb n : Z) (p' : Parameters) :
  call_aln_async qb tb n p' = submit_event p st ->
  n = 1 /\ p' = p
  /\ 0 <= qb <= 1073741824 /\ qb mod 8 = 0
  /\ 0 <= tb <= 1073741824 /\ tb mod 8 = 0.
Proof.
  unfold submit_event. intros H. injection H as -> -> -> ->.
  pose proof (packed_bytes_rounded_eq
                (Int.to_uint32 (host_query_batch_lens st 0))) as [Eq Hq].
  pose proof (packed_bytes_rounded_eq
                (Int.to_uint32 (host_target_batch_lens st 0))) as [Et Ht].
  rewrite Eq, Et.
  repeat split; try lia; apply Z.mod_mul; lia.
Qed.

(** X4. Whatever its outcome, a call of [align] launches at most one
    batch; every launch is made with one alignment, the object's
    settings and byte counts that are multiples of 8 between 0 and
    1073741824; and every sequence it hands to the library is one of the
    two sanitized inputs, placed at offset 0 with a size below 2^32. *)
Theorem align_log_shape a q s (fuel : nat) :
  (count_launches (snd (align a q s fuel)) <= 1)%nat
  /\ (forall qb tb n p,
        In (call_aln_async qb tb n p) (snd (align a q s fuel)) ->
        n = 1 /\ p = args_ a
        /\ 0 <= qb <= 1073741824 /\ qb mod 8 = 0
        /\ 0 <= tb <= 1073741824 /\ tb mod 8 = 0)
  /\ (forall idx d sz src,
        In (call_host_batch_fill idx d sz src) (snd (align a q s fuel)) ->
        idx = 0 /\ 0 <= sz < 2 ^ 32
        /\ ((src = QUERY /\ d = sanitize q) \/ (src = TARGET /\ d = sanitize s))).
Proof.
  assert (Hfill : forall idx d sz src,
             In (call_host_batch_fill idx d sz src)
               (fill_events (sanitize q) (sanitize s)) ->
             idx = 0 /\ 0 <= sz < 2 ^ 32
             /\ ((src = QUERY /\ d = sanitize q)
                 \/ (src = TARGET /\ d = sanitize s))).
  { intros idx d sz src H. cbn in H.
    destruct H as [H | [H | [H | [H | []]]]]; try discriminate;
      injection H as <- <- <- <-;
      (split; [reflexivity |]); (split; [apply to_uint32_range |]);
      [left | right]; split; reflexivity. }
  assert (Hpoll : forall r n idx d sz src,
             ~ In (call_host_batch_fill idx d sz src)
                 (repeat (call_is_aln_async_done r) n)).
  { intros r n idx d sz src H. apply repeat_spec in H. discriminate. }
  destruct (align_cases a q s fuel)
    as [[_ E] | [(_ & k & _ & _ & E) | (_ & _ & E)]];
    rewrite E; cbn [snd].
  - split; [cbn; lia |]. split; intros; contradiction.
  - split; [| split].
    + rewrite !count_launches_app. unfold poll_events.
      rewrite count_launches_app, count_launches_repeat_poll. cbn. lia.
    + intros qb tb n p H. rewrite !in_app_iff in H.
      destruct H as [[H | H] | H].
      * cbn in H. repeat (destruct H as [H | H]; [discriminate |]).
        destruct H.
      * destruct H as [H | []]. symmetry in H.
        now apply submit_event_facts in H.
      * now apply in_poll_events_async in H.
    + intros idx d sz src H. rewrite !in_app_iff in H.
      destruct H as [[H | H] | H].
      * now apply Hfill.
      * destruct H as [H | []]. discriminate.
      * unfold poll_events in H. apply in_app_iff in H.
        destruct H as [H | [H | []]]; [| discriminate].
        now apply Hpoll in H.
  - split; [| split].
    + rewrite !count_launches_app, count_launches_repeat_poll. cbn. lia.
    + intros qb tb n p H. rewrite !in_app_iff in H.
      destruct H as [[H | H] | H].
      * cbn in H. repeat (destruct H as [H | H]; [discriminate |]).
        destruct H.
      * destruct H as [H | []]. symmetry in H.
        now apply submit_event_facts in H.
      * apply repeat_spec in H. discriminate.
    + intros idx d sz src H. rewrite !in_app_iff in H.
      destruct H as [[H | H] | H].
      * now apply Hfill.
      * destruct H as [H | []]. discriminate.
      * now apply Hpoll in H.
Qed.

End WrapperMore.

Lemma align_throws_iff_in_range_witness :
  Z.of_nat (length (repeat "A"%char 2049)) < 2 ^ 31
  /\ Z.of_nat (length (str "A")) < 2 ^ 31
  /\ (fst (fst (@align _ example_backend example_aligner
                  (repeat "A"%char 2049) (str "A") 10))
      = Throw LengthExceeded
      <-> Z.of_nat (length (repeat "A"%char 2049)) > max_q_ example_aligner
          \/ Z.of_nat (length (str "A")) > max_t_ example_aligner).
Proof.
  assert (H1 : Z.of_nat (length (repeat "A"%char 2049)) < 2 ^ 31)
    by (vm_compute; reflexivity).
  assert (H2 : Z.of_nat (length (str "A")) < 2 ^ 31)
    by (vm_compute; reflexivity).
  split; [exact H1 |]. split; [exact H2 |].
  apply (@align_throws_iff_in_range _ example_backend example_aligner
           (repeat "A"%char 2049) (str "A") 10 H1 H2).
Defined.

Lemma align_throw_is_noop_witness :
  fst (fst (@align _ example_backend example_aligner
              (repeat "A"%char 2049) (str "A") 10))
  = Throw LengthExceeded
  /\ @align _ example_backend example_aligner (repeat "A"%char 2049)
       (str "A") 10
     = (Throw LengthExceeded, example_aligner, []).
Proof.
  assert (H : fst (fst (@align _ example_backend example_aligner
                          (repeat "A"%char 2049) (str "A") 10))
              = Throw LengthExceeded) by (vm_compute; reflexivity).
  split; [exact H |].
  apply (@align_throw_is_noop _ example_backend example_aligner
           (repeat "A"%char 2049) (str "A") 10 H).
Defined.

(** X16. The constructor does not check the maxima: an object built
    with a negative [max_q] or [max_t] rejects every pair of inputs
    shorter than 2147483648 bytes, two empty strings included, before any
    library call. *)
Theorem align_negative_max_rejects {L : Type} {B : Backend L}
    (a : GasalAligner L) (q s : list ascii) (fuel : nat) :
  max_q_ a < 0 \/ max_t_ a < 0 ->
  Z.of_nat (length q) < 2 ^ 31 ->
  Z.of_nat (length s) < 2 ^ 31 ->
  align a q s fuel = (Throw LengthExceeded, a, []).
Proof.
  intros Hneg Hq Hs. apply align_rejected.
  rewrite length_exceeded_sanitize.
  apply (length_exceeded_iff (max_q_ a) (max_t_ a) q s Hq Hs). lia.
Qed.

Lemma align_negative_max_rejects_witness :
  (max_q_ refusing_aligner < 0 \/ max_t_ refusing_aligner < 0)
  /\ Z.of_nat (length (@nil ascii)) < 2 ^ 31
  /\ Z.of_nat (length (@nil ascii)) < 2 ^ 31
  /\ @align _ example_backend refusing_aligner [] [] 10
     = (Throw LengthExceeded, refusing_aligner, []).
Proof.
  assert (H1 : max_q_ refusing_aligner < 0 \/ max_t_ refusing_aligner < 0)
    by (left; vm_compute; reflexivity).
  assert (H2 : Z.of_nat (length (@nil ascii)) < 2 ^ 31)
    by (vm_compute; reflexivity).
  repeat (split; [assumption |]).
  apply (@align_negative_max_rejects _ example_backend refusing_aligner
           [] [] 10 H1 H2 H2).
Defined.

(* ================================================================== *)
(** * Part IV.  What a call leaves to the library                     *)
(* ================================================================== *)

Section WrapperStorage.

Context {L : Type} {B : Backend L}.

Implicit Types (a : GasalAligner L) (q s : list ascii) (lg : list event).

Lemma length_query_4g : Z.of_nat (length query_4g) = 4294967295.
Proof. unfold query_4g. rewrite repeat_length. apply Z2Nat.id. lia. Qed.



(** C3, the failing input. For a query of 4294967295 bases and a target
    of one base, on an object with the default maxima, [(int)q.size()] is
    -1, so the length check does not fire; line 78 stores the length
    4294967295 in slot 0; and for that length [packed_bytes_rounded]
    computes 0 bytes, where [ceil(L/4)] rounded up to a multiple of 8 is
    1073741824. Over a library whose [gasal_op_fill] leaves the stored
    length alone, the launch is made with 0 query bytes. *)
Theorem packed_bytes_wrap_reached (l : L)
    (match_score mismatch_score gap_open_score gap_extend_score : Z)
    (fuel : nat) :
  let a := GasalAligner_default l match_score mismatch_score gap_open_score
             gap_extend_score in
  Int.to_int (size (sanitize query_4g)) = -1
  /\ length_exceeded (max_q_ a) (max_t_ a) (sanitize query_4g)
       (sanitize (str "A")) = false
  /\ (exists st2 st3 q_off t_off,
        slot_0_recorded st2 st3 q_off t_off 4294967295 1
        /\ filled (stor_v_ a) (sanitize query_4g) (sanitize (str "A"))
           = gasal_op_fill (gasal_op_fill st3 0 0 QUERY) 0 0 TARGET)
  /\ packed_bytes_rounded 4294967295 = 0
  /\ round_up_to_8 (ceil_div 4294967295 4) = 1073741824
  /\ (host_query_batch_lens
        (filled (stor_v_ a) (sanitize query_4g) (sanitize (str "A"))) 0
      = 4294967295 ->
      exists tb rest,
        snd (align a query_4g (str "A") fuel)
        = fill_events (sanitize query_4g) (sanitize (str "A"))
          ++ call_aln_async 0 tb 1 (args_ a) :: rest).
Proof.
  intros a.
  assert (Hlen : Z.of_nat (length (sanitize query_4g)) = 4294967295).
  { rewrite length_sanitize. apply length_query_4g. }
  assert (Hsz : size (sanitize query_4g) = 4294967295).
  { unfold size. rewrite Hlen. reflexivity. }
  assert (Hi : Int.to_int (size (sanitize query_4g)) = -1)
    by (rewrite Hsz; reflexivity).
  assert (Hacc : length_exceeded (max_q_ a) (max_t_ a)
                   (sanitize query_4g) (sanitize (str "A")) = false).
  { unfold length_exceeded. rewrite Hi. reflexivity. }
  split; [exact Hi |]. split; [exact Hacc |]. split.
  { destruct (filled_pinned (stor_v_ a) (sanitize query_4g)
                (sanitize (str "A")))
      as (st0 & st1 & q_off & st2 & t_off & st3 & _ & _ & _ & Hrec & Hf).
    exists st2, st3, (Int.to_uint32 q_off), (Int.to_uint32 t_off).
    split; [| exact Hf]. rewrite Hsz in Hrec. exact Hrec. }
  split; [reflexivity |]. split; [reflexivity |].
  intros Hkeep.
  destruct (align_cases a query_4g (str "A") fuel)
    as [[E _] | [(_ & k & _ & _ & E) | (_ & _ & E)]].
  - rewrite Hacc in E. discriminate.
  - rewrite E. cbn [snd]. unfold submit_event. rewrite Hkeep.
    change (packed_bytes_rounded (Int.to_uint32 4294967295)) with 0.
    rewrite <- app_assoc. cbn [app]. eexists. eexists. reflexivity.
  - rewrite E. cbn [snd]. unfold submit_event. rewrite Hkeep.
    change (packed_bytes_rounded (Int.to_uint32 4294967295)) with 0.
    rewrite <- app_assoc. cbn [app]. eexists. eexists. reflexivity.
Qed.



End WrapperStorage.




